(** * Spherical-surface character controller

    A shallow embedding of the player controllers of the Comet Observatory
    scenes ([v2.py], [b33132.0.py], [b33134k6.6.25.py], [buildv06.6.25.py])
    and the properties of their normal query, motion integration, ground
    collision, jump and reset.

    Numbers.  The Python code computes with IEEE doubles (and the engine's
    [Vec3] with single floats).  Here every float is an ideal real number
    of [R]: rounding error is abstracted away, which is the reading the
    properties use when they say "within tolerance".  Comparisons of the
    source ([<=], [<], [==], [!=]) become the decision procedures of [R].

    Engine.  [Vec3] is Panda3D's vector type as re-exported by Ursina.  Its
    methods are modelled by their documented behaviour; the entity axes
    [self.forward], [self.right], [self.up], which the engine derives from
    the entity's transform, are inputs of a frame. *)

From Stdlib Require Import Reals Lra Lia ZArith List String Bool.
Import ListNotations.

Open Scope R_scope.

(** ** Vec3 *)

Record Vec3 : Type := mkVec3 { vx : R; vy : R; vz : R }.

Declare Scope vec_scope.
Delimit Scope vec_scope with vec.
Bind Scope vec_scope with Vec3.

Definition vzero : Vec3 := mkVec3 0 0 0.

(** [a + b] *)
Definition vadd (a b : Vec3) : Vec3 :=
  mkVec3 (vx a + vx b) (vy a + vy b) (vz a + vz b).

(** [a - b] *)
Definition vsub (a b : Vec3) : Vec3 :=
  mkVec3 (vx a - vx b) (vy a - vy b) (vz a - vz b).

(** [-a] *)
Definition vneg (a : Vec3) : Vec3 := mkVec3 (- vx a) (- vy a) (- vz a).

(** [a * k], a vector times a scalar *)
Definition vscale (a : Vec3) (k : R) : Vec3 :=
  mkVec3 (vx a * k) (vy a * k) (vz a * k).

Notation "a +v b" := (vadd a b) (at level 50, left associativity) : vec_scope.
Notation "a -v b" := (vsub a b) (at level 50, left associativity) : vec_scope.
Notation "a *v k" := (vscale a k) (at level 40, left associativity) : vec_scope.
Notation "-v a" := (vneg a) (at level 35, right associativity) : vec_scope.

Open Scope vec_scope.

(** [a.dot(b)] *)
Definition dot (a b : Vec3) : R := vx a * vx b + vy a * vy b + vz a * vz b.

(** [a.length_squared()] *)
Definition length_squared (a : Vec3) : R := dot a a.

(** [a.length()] *)
Definition length (a : Vec3) : R := sqrt (length_squared a).

(** [a.normalized()].  Panda3D documents: "Normalizes the vector and
    returns the normalized vector as a copy.  If the vector was a
    zero-length vector, a zero length vector will be returned." *)
Definition normalized (a : Vec3) : Vec3 :=
  if Req_dec_T (length_squared a) 0 then vzero
  else a *v (/ length a).

(** ** Python's [round(x, 1)] and [round(x, 2)]

    [round(x, n)] is the multiple of [10^-n] nearest to [x], a tie going to
    the even multiple.  Two such floats are equal exactly when the integer
    multiples are, so the rounded value is kept as that integer. *)

Definition round_half_even (x : R) : Z :=
  let f := Int_part x in
  let r := x - IZR f in
  if Rlt_dec r (1 / 2) then f
  else if Rlt_dec (1 / 2) r then (f + 1)%Z
  else if Z.even f then f else (f + 1)%Z.

(** [round(x, 1)], in tenths *)
Definition round1 (x : R) : Z := round_half_even (x * 10).

(** [round(x, 2)], in hundredths *)
Definition round2 (x : R) : Z := round_half_even (x * 100).

(** The quantized key [(round(pos.x, 1), round(pos.y, 1), round(pos.z, 1))]. *)
Definition PosTuple : Type := (Z * Z * Z)%type.

Definition pos_tuple1 (pos : Vec3) : PosTuple :=
  (round1 (vx pos), round1 (vy pos), round1 (vz pos)).

Definition PosTuple_eqb (a b : PosTuple) : bool :=
  let '(a1, a2, a3) := a in
  let '(b1, b2, b3) := b in
  (a1 =? b1)%Z && (a2 =? b2)%Z && (a3 =? b3)%Z.

(** ** Engine inputs shared by the variants *)

(** [held_keys]: Ursina's [defaultdict] from key names to 0/1; a key that
    was never pressed reads 0. *)
Definition HeldKeys : Type := list (string * Z).

Fixpoint held (held_keys : HeldKeys) (key : string) : Z :=
  match held_keys with
  | [] => 0%Z
  | (k, v) :: rest => if String.eqb k key then v else held rest key
  end.

(** [any(held_keys.values())] *)
Definition any_held (held_keys : HeldKeys) : bool :=
  existsb (fun kv => negb (snd kv =? 0)%Z) held_keys.

(** What one call of [update] reads from the engine: [time.dt],
    [mouse.velocity], [held_keys] and the entity's axes. *)
Record Frame : Type := mkFrame {
  dt : R;
  mouse_velocity : R * R;
  held_keys : HeldKeys;
  forward : Vec3;
  right : Vec3
}.

(** [move_x] and [move_z] are both zero: no movement input this frame. *)
Definition no_move_input (fr : Frame) : Prop :=
  (held (held_keys fr) "d" - held (held_keys fr) "a" = 0)%Z /\
  (held (held_keys fr) "w" - held (held_keys fr) "s" = 0)%Z.

(** Ursina's [clamp(value, floor, ceiling)] is [max(min(value, ceiling), floor)]. *)
Definition clamp (value floor ceiling : R) : R := Rmax (Rmin value ceiling) floor.

(** [class Physics]: the numeric constants.  [PLANET_CENTER] is
    [Vec3(0, 0, 0)] in every variant, and the collision code measures the
    distance from the origin ([self.position.length()]). *)
Record Physics : Type := mkPhysics {
  GRAVITY : R;
  PLANET_RADIUS : R;
  PLAYER_HEIGHT : R;
  PLAYER_RADIUS : R;
  JUMP_HEIGHT : R;
  MOVE_SPEED : R;
  AIR_CONTROL : R;
  FRICTION : R
}.

Definition PLANET_CENTER : Vec3 := mkVec3 0 0 0.

(** The reference normal of the specification, [(p - center).normalized()]. *)
Definition normal_at (p : Vec3) : Vec3 := normalized (p -v PLANET_CENTER).

(** The component of [v] tangent to the surface with normal [n]. *)
Definition tangential (v n : Vec3) : Vec3 := v -v n *v dot v n.

(** A Python call either returns or raises. *)
Inductive result (A : Type) : Type :=
| Ok (a : A)
| Raise (e : string).
Arguments Ok {A} a.
Arguments Raise {A} e.

(** [v.copy()] on a [Vec3].  Panda3D's vector classes have no [copy]
    method and Ursina's [Vec3] adds none, so the attribute lookup raises
    [AttributeError].  [v3.0.py] replaces both calls of [v2.py] by
    [Vec3(...)], each marked "Fixed: Use Vec3() instead of copy()". *)
Definition Vec3_copy (v : Vec3) : result Vec3 := Raise "AttributeError".

(** Python's [x != y] and [x == y] on numbers. *)
Definition Rneqb (x y : R) : bool := if Req_dec_T x y then false else true.
Definition Reqb (x y : R) : bool := if Req_dec_T x y then true else false.

(** ** [v2.py]: [class SphericalPlayer] *)

Module V2.

(** The attributes of the entity that the controller reads or writes.
    [_last_pos_tuple] and [_cached_normal] are only ever assigned
    together ([None], [None] in [__init__]; key and normal in
    [get_surface_normal]), so they are kept as one optional pair. *)
Record SphericalPlayer : Type := mkPlayer {
  position : Vec3;
  velocity : Vec3;
  grounded : bool;
  start_pos : Vec3;
  rotation : Vec3;
  camera_pivot_rotation_x : R;
  speed : R;
  jump_height : R;
  height : R;
  mouse_sensitivity : R * R;
  cache : option (PosTuple * Vec3)
}.

Definition set_cache (s : SphericalPlayer) (c : option (PosTuple * Vec3))
  : SphericalPlayer :=
  mkPlayer (position s) (velocity s) (grounded s) (start_pos s) (rotation s)
    (camera_pivot_rotation_x s) (speed s) (jump_height s) (height s)
    (mouse_sensitivity s) c.

Section Controller.

Variable P : Physics.

(** [__init__(self, **kwargs)]; [position] is the entity attribute the
    caller passes ([Vec3(0, 0, 0)] by default).  Line 61,
    [self.start_pos = self.position.copy()], is reached first among the
    statements that can fail; the lines after it run only if it returns. *)
Definition __init__ (pos : Vec3) : result SphericalPlayer :=
  match Vec3_copy pos with
  | Ok start_pos =>
      Ok {| position := pos;
            velocity := mkVec3 0 0 0;
            grounded := false;
            start_pos := start_pos;
            rotation := mkVec3 0 0 0;
            camera_pivot_rotation_x := 0;
            speed := MOVE_SPEED P;
            jump_height := JUMP_HEIGHT P;
            height := PLAYER_HEIGHT P;
            mouse_sensitivity := (100, 100);
            cache := None |}
  | Raise e => Raise e
  end.

(** [get_surface_normal(self, pos)]: the new state of the memo and the
    returned vector. *)
Definition get_surface_normal (s : SphericalPlayer) (pos : Vec3)
  : SphericalPlayer * Vec3 :=
  let pos_tuple := pos_tuple1 pos in
  let refill :=
    let n := normalized (pos -v PLANET_CENTER) in
    (set_cache s (Some (pos_tuple, n)), n) in
  match cache s with
  | None => refill
  | Some (last_pos_tuple, cached_normal) =>
      if PosTuple_eqb pos_tuple last_pos_tuple then (s, cached_normal)
      else refill
  end.

(** Lines 111-124 of [update]: the normalised input and [move_amount]. *)
Definition move_input (s : SphericalPlayer) (fr : Frame) : R * R * Vec3 :=
  let move_x := IZR (held (held_keys fr) "d" - held (held_keys fr) "a") in
  let move_z := IZR (held (held_keys fr) "w" - held (held_keys fr) "s") in
  if Rneqb move_x 0 || Rneqb move_z 0 then
    let move_length := sqrt (move_x * move_x + move_z * move_z) in
    let move_x := move_x / move_length in
    let move_z := move_z / move_length in
    let move_direction := forward fr *v move_z +v right fr *v move_x in
    let move_amount :=
      move_direction *v speed s *v (if negb (grounded s) then AIR_CONTROL P else 1) in
    (move_x, move_z, move_amount)
  else (move_x, move_z, mkVec3 0 0 0).

(** Lines 126-131: the velocity after gravity and the integrated position. *)
Definition integrate (s : SphericalPlayer) (fr : Frame)
    (surface_normal move_amount : Vec3) : Vec3 * Vec3 :=
  let gravity_force := (-v surface_normal) *v GRAVITY P in
  let velocity := velocity s +v gravity_force *v dt fr in
  let position := position s +v (velocity +v move_amount) *v dt fr in
  (velocity, position).

(** Lines 141-144: cancel the inward radial velocity. *)
Definition cancel_radial (velocity surface_normal : Vec3) : Vec3 :=
  let radial_velocity := dot velocity surface_normal in
  if Rlt_dec radial_velocity 0 then velocity -v surface_normal *v radial_velocity
  else velocity.

(** Lines 146-148: friction when the input is zero. *)
Definition apply_friction (move_x move_z : R) (velocity : Vec3) : Vec3 :=
  if Reqb move_x 0 && Reqb move_z 0 then velocity *v FRICTION P
  else velocity.

(** [update(self)].  The locals [world_forward], [right], [forward] of
    lines 94-99 are never read and [self.model.setMat(self.model.getMat())]
    writes back what it reads; they leave no trace here. *)
Definition update (s : SphericalPlayer) (fr : Frame) : SphericalPlayer :=
  let '(s, surface_normal) := get_surface_normal s (position s) in
  let rotation :=
    mkVec3 (vx (rotation s))
           (vy (rotation s) + fst (mouse_velocity fr) * fst (mouse_sensitivity s) * dt fr)
           (vz (rotation s)) in
  let camera_pivot_rotation_x :=
    clamp (camera_pivot_rotation_x s
           - snd (mouse_velocity fr) * snd (mouse_sensitivity s) * dt fr)
          (-90) 90 in
  let '(move_x, move_z, move_amount) := move_input s fr in
  let '(velocity, position) := integrate s fr surface_normal move_amount in
  let distance_from_center := length position in
  let target_distance := PLANET_RADIUS P + height s / 2 in
  if Rle_dec distance_from_center target_distance then
    let position := normalized position *v target_distance in
    let velocity := cancel_radial velocity surface_normal in
    let velocity := apply_friction move_x move_z velocity in
    mkPlayer position velocity true (start_pos s) rotation
      camera_pivot_rotation_x (speed s) (jump_height s) (height s)
      (mouse_sensitivity s) (cache s)
  else
    mkPlayer position velocity false (start_pos s) rotation
      camera_pivot_rotation_x (speed s) (jump_height s) (height s)
      (mouse_sensitivity s) (cache s).

(** [jump(self)] *)
Definition jump (s : SphericalPlayer) : SphericalPlayer :=
  if grounded s then
    let '(s, surface_normal) := get_surface_normal s (position s) in
    mkPlayer (position s) (velocity s +v surface_normal *v jump_height s) false
      (start_pos s) (rotation s) (camera_pivot_rotation_x s) (speed s)
      (jump_height s) (height s) (mouse_sensitivity s) (cache s)
  else s.

(** [reset_position(self)].  Its first statement,
    [self.position = self.start_pos.copy()], evaluates the right-hand side
    before it assigns; when that raises, no attribute has been written. *)
Definition reset_position (s : SphericalPlayer) : result SphericalPlayer :=
  match Vec3_copy (start_pos s) with
  | Ok position =>
      Ok (mkPlayer position (mkVec3 0 0 0) (grounded s) (start_pos s)
            (mkVec3 0 0 0) 0 (speed s) (jump_height s) (height s)
            (mouse_sensitivity s) (cache s))
  | Raise e => Raise e
  end.

(** The calls the host makes on a controller: one [update] per frame, and
    [jump] and [reset_position] from the key handler. *)
Inductive Call : Type :=
| CallUpdate (fr : Frame)
| CallJump
| CallReset.

Definition call (s : SphericalPlayer) (c : Call) : result SphericalPlayer :=
  match c with
  | CallUpdate fr => Ok (update s fr)
  | CallJump => Ok (jump s)
  | CallReset => reset_position s
  end.

(** A sequence of calls, up to the first that raises. *)
Fixpoint run (s : SphericalPlayer) (cs : list Call) : result SphericalPlayer :=
  match cs with
  | [] => Ok s
  | c :: cs =>
      match call s c with
      | Ok s => run s cs
      | Raise e => Raise e
      end
  end.

(** *** What a frame computes, named for the statements below *)

(** The [surface_normal] local of [update] and [jump]. *)
Definition frame_normal (s : SphericalPlayer) : Vec3 :=
  snd (get_surface_normal s (position s)).

(** [move_amount] of the frame. *)
Definition move_amount (s : SphericalPlayer) (fr : Frame) : Vec3 :=
  snd (move_input s fr).

(** [self.velocity] after line 128 and [self.position] after line 131. *)
Definition integrated_velocity (s : SphericalPlayer) (fr : Frame) : Vec3 :=
  fst (integrate s fr (frame_normal s) (move_amount s fr)).

Definition integrated_position (s : SphericalPlayer) (fr : Frame) : Vec3 :=
  snd (integrate s fr (frame_normal s) (move_amount s fr)).

(** [target_distance] of line 135. *)
Definition target_distance (s : SphericalPlayer) : R :=
  PLANET_RADIUS P + height s / 2.

(** The frame takes the collision branch of line 137. *)
Definition lands (s : SphericalPlayer) (fr : Frame) : Prop :=
  length (integrated_position s fr) <= target_distance s.

(** [s] with the flag set to [g]. *)
Definition with_grounded (s : SphericalPlayer) (g : bool) : SphericalPlayer :=
  mkPlayer (position s) (velocity s) g (start_pos s) (rotation s)
    (camera_pivot_rotation_x s) (speed s) (jump_height s) (height s)
    (mouse_sensitivity s) (cache s).


(** A run of consecutive frames, each with zero movement input, each
    leaving [grounded] true, during which the surface normal of the frames
    stays [n]. *)
Inductive friction_run (n : Vec3) : SphericalPlayer -> list Frame -> Prop :=
| friction_run_nil (s : SphericalPlayer) : friction_run n s []
| friction_run_cons (s : SphericalPlayer) (fr : Frame) (frs : list Frame) :
    no_move_input fr ->
    grounded (update s fr) = true ->
    frame_normal s = n ->
    friction_run n (update s fr) frs ->
    friction_run n s (fr :: frs).

(** The same without the condition on the normal: consecutive frames of
    non-negative duration, each with zero movement input and each leaving
    [grounded] true. *)
Inductive idle_run : SphericalPlayer -> list Frame -> Prop :=
| idle_run_nil (s : SphericalPlayer) : idle_run s []
| idle_run_cons (s : SphericalPlayer) (fr : Frame) (frs : list Frame) :
    no_move_input fr ->
    0 <= dt fr ->
    grounded (update s fr) = true ->
    idle_run (update s fr) frs ->
    idle_run s (fr :: frs).

End Controller.

(** The memo holds the reference normal of some position with its key. *)
Definition cache_inv (s : SphericalPlayer) : Prop :=
  match cache s with
  | None => True
  | Some (k, n) => exists q, k = pos_tuple1 q /\ n = normal_at q
  end.

(** The memo cannot answer a query at [p] with a stale vector: it is empty,
    keyed differently, or holds the reference normal of [p]. *)
Definition cache_fresh_at (s : SphericalPlayer) (p : Vec3) : Prop :=
  match cache s with
  | None => True
  | Some (k, n) => k <> pos_tuple1 p \/ n = normal_at p
  end.

(** [class Physics] of [v2.py]. *)
Definition physics : Physics :=
  {| GRAVITY := 25; PLANET_RADIUS := 32; PLAYER_HEIGHT := 2;
     PLAYER_RADIUS := 0.5; JUMP_HEIGHT := 5; MOVE_SPEED := 7;
     AIR_CONTROL := 0.8; FRICTION := 0.9 |}.

End V2.

(** ** [b33132.0.py]: [class SphericalPlayer]

    The normal query is not memoised here ([_last_pos_tuple] and
    [_cached_normal] are set to [None] and never used), [start_pos] is the
    literal [Vec3(0, 0, 0)], and the movement axes are the camera's,
    projected onto the tangent plane: the [forward] and [right] of a [Frame]
    stand for [camera.forward] and [camera.right]. *)

Module B33132.

Record SphericalPlayer : Type := mkPlayer {
  position : Vec3;
  velocity : Vec3;
  grounded : bool;
  start_pos : Vec3;
  rotation : Vec3;
  camera_pivot_rotation_x : R;
  speed : R;
  jump_height : R;
  height : R;
  mouse_sensitivity : R * R
}.

Section Controller.

Variable P : Physics.

(** The name [Vec2] at line 68.  Line 1 of [b33132.0.py] imports [Vec3]
    from [ursina] but not [Vec2], and nothing else binds the name, so
    evaluating it raises [NameError]. *)
Definition Vec2 (x y : R) : result (R * R) := Raise "NameError".

(** [__init__(self, **kwargs)].  [self.mouse_sensitivity = Vec2(100, 100)]
    is the only statement that can fail; when it raises, the constructor
    call returns no instance. *)
Definition __init__ (pos : Vec3) : result SphericalPlayer :=
  match Vec2 100 100 with
  | Ok mouse_sensitivity =>
      Ok {| position := pos;
            velocity := mkVec3 0 0 0;
            grounded := false;
            start_pos := mkVec3 0 0 0;
            rotation := mkVec3 0 0 0;
            camera_pivot_rotation_x := 0;
            speed := MOVE_SPEED P;
            jump_height := JUMP_HEIGHT P;
            height := PLAYER_HEIGHT P;
            mouse_sensitivity := mouse_sensitivity |}
  | Raise e => Raise e
  end.

(** [get_surface_normal(self, pos)] *)
Definition get_surface_normal (pos : Vec3) : Vec3 :=
  normalized (pos -v PLANET_CENTER).

(** Lines 90-105 of [update]. *)
Definition move_input (s : SphericalPlayer) (fr : Frame)
    (surface_normal : Vec3) : R * R * Vec3 :=
  let move_x := IZR (held (held_keys fr) "d" - held (held_keys fr) "a") in
  let move_z := IZR (held (held_keys fr) "w" - held (held_keys fr) "s") in
  let camera_forward := forward fr in
  let camera_right := right fr in
  let tangent_forward :=
    normalized (camera_forward
                -v surface_normal *v dot surface_normal camera_forward) in
  let tangent_right :=
    normalized (camera_right
                -v surface_normal *v dot surface_normal camera_right) in
  if Rneqb move_x 0 || Rneqb move_z 0 then
    let move_direction :=
      normalized (tangent_forward *v move_z +v tangent_right *v move_x) in
    (move_x, move_z,
     move_direction *v speed s *v (if negb (grounded s) then AIR_CONTROL P else 1))
  else (move_x, move_z, mkVec3 0 0 0).

(** [update(self)]; the camera placement of lines 114-116 touches the
    camera only. *)
Definition update (s : SphericalPlayer) (fr : Frame) : SphericalPlayer :=
  let surface_normal := get_surface_normal (position s) in
  let rotation :=
    mkVec3 (vx (rotation s))
           (vy (rotation s) + fst (mouse_velocity fr) * fst (mouse_sensitivity s) * dt fr)
           (vz (rotation s)) in
  let camera_pivot_rotation_x :=
    clamp (camera_pivot_rotation_x s
           - snd (mouse_velocity fr) * snd (mouse_sensitivity s) * dt fr)
          (-90) 90 in
  let '(move_x, move_z, move_amount) := move_input s fr surface_normal in
  let gravity_force := (-v surface_normal) *v GRAVITY P in
  let velocity := velocity s +v gravity_force *v dt fr in
  let position := position s +v (velocity +v move_amount) *v dt fr in
  let distance_from_center := length position in
  let target_distance := PLANET_RADIUS P + height s / 2 in
  if Rle_dec distance_from_center target_distance then
    let position := normalized position *v target_distance in
    let radial_velocity := dot velocity surface_normal in
    let velocity :=
      if Rlt_dec radial_velocity 0
      then velocity -v surface_normal *v radial_velocity else velocity in
    let velocity :=
      if negb (Rneqb move_x 0 || Rneqb move_z 0) then velocity *v FRICTION P
      else velocity in
    mkPlayer position velocity true (start_pos s) rotation
      camera_pivot_rotation_x (speed s) (jump_height s) (height s)
      (mouse_sensitivity s)
  else
    mkPlayer position velocity false (start_pos s) rotation
      camera_pivot_rotation_x (speed s) (jump_height s) (height s)
      (mouse_sensitivity s).

(** [jump(self)] *)
Definition jump (s : SphericalPlayer) : SphericalPlayer :=
  if grounded s then
    let surface_normal := get_surface_normal (position s) in
    mkPlayer (position s) (velocity s +v surface_normal *v jump_height s) false
      (start_pos s) (rotation s) (camera_pivot_rotation_x s) (speed s)
      (jump_height s) (height s) (mouse_sensitivity s)
  else s.

(** [reset_position(self)] *)
Definition reset_position (s : SphericalPlayer) : SphericalPlayer :=
  mkPlayer (mkVec3 0 0 0) (mkVec3 0 0 0) (grounded s) (start_pos s)
    (mkVec3 0 0 0) 0 (speed s) (jump_height s) (height s)
    (mouse_sensitivity s).

Definition target_distance (s : SphericalPlayer) : R :=
  PLANET_RADIUS P + height s / 2.

End Controller.

(** [class Physics] of [b33132.0.py]. *)
Definition physics : Physics :=
  {| GRAVITY := 25; PLANET_RADIUS := 32; PLAYER_HEIGHT := 2;
     PLAYER_RADIUS := 0.5; JUMP_HEIGHT := 5; MOVE_SPEED := 7;
     AIR_CONTROL := 0.8; FRICTION := 0.9 |}.

(** [player = SphericalPlayer()] of line 227: the entity's default position
    is the origin. *)
Definition player : result SphericalPlayer := __init__ physics (mkVec3 0 0 0).

End B33132.

(** ** [b33134k6.6.25.py]: [class SphericalController]

    [self.up] is assigned at the top of [update] and read afterwards, also
    by [jump]; it is kept as the attribute the code writes.  The body's
    orientation ([rotation_y], then [look_at]) is the engine's: [forward]
    and [right] of a [Frame] are [self.forward] and [self.right] as read
    on line 172. *)

Module B33134k6.

(** The module-level constants. *)
Record Globals : Type := mkGlobals {
  GRAVITY : R;
  SURFACE_R : R;
  PLAYER_HEIGHT : R;
  PLAYER_SPEED : R;
  AIR_CONTROL : R;
  FRICTION : R
}.

Record SphericalController : Type := mkController {
  position : Vec3;
  velocity : Vec3;
  grounded : bool;
  up : Vec3;
  camera_pivot_rotation_x : R;
  height : R;
  jump_height : R;
  speed : R;
  mouse_sensitivity : R * R
}.

Section Controller.

Variable G : Globals.

(** [__init__(self, **kwargs)]; an entity is created upright. *)
Definition __init__ (pos : Vec3) : result SphericalController :=
  Ok {| position := pos;
        velocity := mkVec3 0 0 0;
        grounded := true;
        up := mkVec3 0 1 0;
        camera_pivot_rotation_x := 0;
        height := PLAYER_HEIGHT G;
        jump_height := 8;
        speed := PLAYER_SPEED G;
        mouse_sensitivity := (40, 40) |}.

(** Lines 172-178: the input projected on the ground plane. *)
Definition move_direction (fr : Frame) (up : Vec3) : Vec3 :=
  let move_input :=
    forward fr *v IZR (held (held_keys fr) "w" - held (held_keys fr) "s")
    +v right fr *v IZR (held (held_keys fr) "d" - held (held_keys fr) "a") in
  let move_direction := move_input -v up *v dot move_input up in
  if Rlt_dec 0 (length move_direction) then normalized move_direction
  else move_direction.

(** Lines 180-190: the velocity before gravity. *)
Definition steer (s : SphericalController) (fr : Frame)
    (move_direction : Vec3) : Vec3 :=
  if grounded s then
    let target_velocity := move_direction *v speed s in
    let velocity := velocity s *v 0.8 +v target_velocity *v 0.2 in
    if negb (any_held (held_keys fr)) then velocity *v FRICTION G
    else velocity
  else
    velocity s +v move_direction *v speed s *v AIR_CONTROL G *v dt fr.

(** [update(self)] *)
Definition update (s : SphericalController) (fr : Frame)
  : SphericalController :=
  let up := normalized (position s -v PLANET_CENTER) in
  let camera_pivot_rotation_x :=
    camera_pivot_rotation_x s - snd (mouse_velocity fr) * fst (mouse_sensitivity s) in
  let camera_pivot_rotation_x := clamp camera_pivot_rotation_x (-90) 90 in
  let move_direction := move_direction fr up in
  let velocity := steer s fr move_direction in
  let velocity := velocity +v (-v up) *v GRAVITY G *v dt fr in
  let position := position s +v velocity *v dt fr in
  let dist_from_center := length position in
  if Rle_dec dist_from_center (SURFACE_R G) then
    let position := normalized position *v SURFACE_R G in
    let radial_v := dot velocity up in
    let velocity :=
      if Rlt_dec radial_v 0 then velocity -v up *v radial_v else velocity in
    mkController position velocity true up camera_pivot_rotation_x
      (height s) (jump_height s) (speed s) (mouse_sensitivity s)
  else
    mkController position velocity false up camera_pivot_rotation_x
      (height s) (jump_height s) (speed s) (mouse_sensitivity s).

(** [jump(self)] *)
Definition jump (s : SphericalController) : SphericalController :=
  if grounded s then
    mkController (position s) (velocity s +v up s *v jump_height s) false
      (up s) (camera_pivot_rotation_x s) (height s) (jump_height s)
      (speed s) (mouse_sensitivity s)
  else s.

(** *** What a frame computes *)

(** [self.up] as assigned on line 163. *)
Definition frame_up (s : SphericalController) : Vec3 :=
  normalized (position s -v PLANET_CENTER).

(** [self.velocity] after line 193 and [self.position] after line 196. *)
Definition integrated_velocity (s : SphericalController) (fr : Frame) : Vec3 :=
  steer s fr (move_direction fr (frame_up s))
  +v (-v frame_up s) *v GRAVITY G *v dt fr.

Definition integrated_position (s : SphericalController) (fr : Frame) : Vec3 :=
  position s +v integrated_velocity s fr *v dt fr.

(** The frame takes the collision branch of line 200. *)
Definition lands (s : SphericalController) (fr : Frame) : Prop :=
  length (integrated_position s fr) <= SURFACE_R G.

End Controller.

Definition globals : Globals :=
  {| GRAVITY := 25; SURFACE_R := 32; PLAYER_HEIGHT := 2; PLAYER_SPEED := 7;
     AIR_CONTROL := 0.5; FRICTION := 0.9 |}.

End B33134k6.

(** ** [buildv06.6.25.py]: the normal query and [jump]

    [get_surface_normal] is wrapped in [lru_cache]; it reads nothing but its
    argument and a constant, so a memoised call returns what a fresh call
    would.  [update] passes it the position rounded to two decimals.
    [jump] pushes along [self.up], the entity's own up axis as the engine
    reports it, an input here. *)

Module Buildv06.

Definition pos_tuple2 (pos : Vec3) : PosTuple :=
  (round2 (vx pos), round2 (vy pos), round2 (vz pos)).

(** [Vec3( *pos_tuple)], the rounded floats read back. *)
Definition Vec3_of_tuple (pos_tuple : PosTuple) : Vec3 :=
  let '(a, b, c) := pos_tuple in
  mkVec3 (IZR a / 100) (IZR b / 100) (IZR c / 100).

(** [get_surface_normal(self, pos_tuple)] *)
Definition get_surface_normal (pos_tuple : PosTuple) : Vec3 :=
  let pos := Vec3_of_tuple pos_tuple in
  normalized (pos -v PLANET_CENTER).

(** Lines 94-95 of [update]: the [surface_normal] of a frame. *)
Definition surface_normal (position : Vec3) : Vec3 :=
  get_surface_normal (pos_tuple2 position).

Record SphericalPlayer : Type := mkPlayer {
  position : Vec3;
  velocity : Vec3;
  grounded : bool;
  jump_height : R
}.

(** [jump(self)] *)
Definition jump (s : SphericalPlayer) (up : Vec3) : SphericalPlayer :=
  if grounded s then
    mkPlayer (position s) (velocity s +v up *v jump_height s) false
      (jump_height s)
  else s.

End Buildv06.

(** ** Concrete frames and states used in the examples *)

(** A frame with no key held and the mouse at rest. *)
Definition idle_frame (dt : R) : Frame :=
  mkFrame dt (0, 0) [] (mkVec3 0 0 1) (mkVec3 1 0 0).

(** A frame with only [w] held. *)
Definition forward_frame (dt : R) : Frame :=
  mkFrame dt (0, 0) [("w"%string, 1%Z)] (mkVec3 0 0 1) (mkVec3 1 0 0).

(** A frame with only [d] held. *)
Definition right_frame (dt : R) : Frame :=
  mkFrame dt (0, 0) [("d"%string, 1%Z)] (mkVec3 0 0 1) (mkVec3 1 0 0).


(** A configuration with a negative radius and a negative height. *)
Definition inverted_physics : Physics :=
  {| GRAVITY := 25; PLANET_RADIUS := -32; PLAYER_HEIGHT := -2;
     PLAYER_RADIUS := 0.5; JUMP_HEIGHT := 5; MOVE_SPEED := 7;
     AIR_CONTROL := 0.8; FRICTION := 0.9 |}.

Definition inverted_globals : B33134k6.Globals :=
  {| B33134k6.GRAVITY := 25; B33134k6.SURFACE_R := -32;
     B33134k6.PLAYER_HEIGHT := -2; B33134k6.PLAYER_SPEED := 7;
     B33134k6.AIR_CONTROL := 0.5; B33134k6.FRICTION := 0.9 |}.

(** A [b33134k6.6.25.py] controller on the surface at the pole, sliding
    sideways at one unit per second. *)
Definition sliding : B33134k6.SphericalController :=
  B33134k6.mkController (mkVec3 0 32 0) (mkVec3 1 0 0) true (mkVec3 0 1 0)
    0 2 8 7 (40, 40).

(** The same controller in the air, high above the pole. *)
Definition gliding : B33134k6.SphericalController :=
  B33134k6.mkController (mkVec3 0 100 0) (mkVec3 0 0 0) false (mkVec3 0 1 0)
    0 2 8 7 (40, 40).

(** A [b33132.0.py] player standing on the surface at the pole. *)
Definition resting : B33132.SphericalPlayer :=
  B33132.mkPlayer (mkVec3 0 33 0) (mkVec3 0 0 0) true (mkVec3 0 0 0)
    (mkVec3 0 0 0) 0 7 5 2 (100, 100).

Module V2_Examples.
Import V2.

(** A [v2.py] player with the file's constants, placed at [pos] with
    velocity [vel]. *)
Definition player_at (pos vel : Vec3) (g : bool)
    (c : option (PosTuple * Vec3)) : SphericalPlayer :=
  mkPlayer pos vel g (mkVec3 0 34 0) (mkVec3 0 0 0) 0 7 5 2 (100, 100) c.

(** At the planet centre, flagged as grounded. *)
Definition stuck : SphericalPlayer :=
  player_at PLANET_CENTER (mkVec3 0 0 0) true None.

(** On the surface at the pole, the memo last filled 0.04 to the side,
    in the same cell of the one-decimal grid. *)
Definition drifted : SphericalPlayer :=
  player_at (mkVec3 0 33 0) (mkVec3 0 0 0) true
    (Some (pos_tuple1 (mkVec3 (4 / 100) 33 0),
           normal_at (mkVec3 (4 / 100) 33 0))).

(** Standing on the surface at the pole. *)
Definition standing : SphericalPlayer :=
  player_at (mkVec3 0 33 0) (mkVec3 0 0 0) true None.

(** At spawn height, falling at 9 units per second. *)
Definition falling : SphericalPlayer :=
  player_at (mkVec3 0 34 0) (mkVec3 0 (-9) 0) false None.

(** On the surface at the pole, moving sideways at 3 units per second
    against the [d] key. *)
Definition braking : SphericalPlayer :=
  player_at (mkVec3 0 33 0) (mkVec3 (-3) 0 0) true None.


Definition braking_landing : Vec3 := mkVec3 (4 / 10) (3275 / 100) 0.

(** High above the pole, at rest. *)
Definition high : SphericalPlayer :=
  player_at (mkVec3 0 100 0) (mkVec3 0 0 0) false None.

End V2_Examples.

(** ** [v2.py]: the host code around the controller *)

Module V2_Host.

(** *** [class PerformanceMonitor] *)

Record PerformanceMonitor : Type := mkMonitor {
  fps_samples : list R;
  last_log_time : R;
  log_interval : R;
  sample_count : Z;
  max_samples : Z
}.

(** [__init__(self)]; [now] is what [pytime.time()] returns. *)
Definition monitor_init (now : R) : PerformanceMonitor :=
  mkMonitor [] now 10 0 600.

(** The three numbers of the log line. *)
Record FpsStats : Type := mkStats {
  avg_fps : R;
  min_fps : R;
  max_fps : R
}.

(** [sum(l)] *)
Definition sum (l : list R) : R := fold_left Rplus l 0.

(** [min(l)] and [max(l)] of a list with first element [x]. *)
Definition list_min (x : R) (rest : list R) : R := fold_left Rmin rest x.
Definition list_max (x : R) (rest : list R) : R := fold_left Rmax rest x.

(** Lines 343-347: the statistics, computed only [if self.fps_samples]. *)
Definition fps_stats (samples : list R) : option FpsStats :=
  match samples with
  | [] => None
  | x :: rest =>
      Some (mkStats (sum samples / INR (List.length samples))
                    (list_min x rest) (list_max x rest))
  end.

(** [update(self)]: the new monitor and the statistics it printed, if any.
    [dt] is [time.dt] and [current_time] is [pytime.time()]. *)
Definition monitor_update (m : PerformanceMonitor) (dt current_time : R)
  : PerformanceMonitor * option FpsStats :=
  let '(samples, count) :=
    if Rlt_dec 0 dt then
      let samples := fps_samples m ++ [1 / dt] in
      let count := (sample_count m + 1)%Z in
      if (count >? max_samples m)%Z then (tl samples, max_samples m)
      else (samples, count)
    else (fps_samples m, sample_count m) in
  if Rle_dec (log_interval m) (current_time - last_log_time m) then
    (mkMonitor [] current_time (log_interval m) 0 (max_samples m),
     fps_stats samples)
  else
    (mkMonitor samples (last_log_time m) (log_interval m) count
       (max_samples m),
     None).

(** The buffer and the counter after lines 331-338 of [update]. *)
Definition sampled (m : PerformanceMonitor) (dt : R) : list R * Z :=
  if Rlt_dec 0 dt then
    if (sample_count m + 1 >? max_samples m)%Z
    then (tl (fps_samples m ++ [1 / dt]), max_samples m)
    else (fps_samples m ++ [1 / dt], (sample_count m + 1)%Z)
  else (fps_samples m, sample_count m).

(** Consecutive frames, each given as [(dt, current_time)]. *)
Definition monitor_run (m : PerformanceMonitor) (frames : list (R * R))
  : PerformanceMonitor :=
  fold_left (fun m fr => fst (monitor_update m (fst fr) (snd fr))) frames m.

(** *** [ObservatoryWorld.update_animations] *)

(** The animated attributes: the star's scale and yaw, and the scale of
    each energy node, in the order of [self.energy_nodes]. *)
Record Animated : Type := mkAnimated {
  central_star_scale : R;
  central_star_rotation_y : R;
  energy_node_scales : list R
}.

(** The loop [for i, node in enumerate(self.energy_nodes)], from index [i]. *)
Fixpoint animate_nodes (t : R) (i : nat) (nodes : list R) : list R :=
  match nodes with
  | [] => []
  | _ :: rest =>
      let base_scale := 0.8 in
      let amplitude := 0.15 in
      (base_scale + sin (t * 3 + INR i) * amplitude)
        :: animate_nodes t (S i) rest
  end.

(** [update_animations(self, t)]; [dt] is [time.dt]. *)
Definition update_animations (w : Animated) (t dt : R) : Animated :=
  let star_scale := 2 + sin (t * 2) * 0.2 in
  mkAnimated star_scale (central_star_rotation_y w + 10 * dt)
    (animate_nodes t 0 (energy_node_scales w)).

(** *** The key handler [input(key)] *)

(** What the handler can touch: the player, three window switches, and
    whether [app.quit()] was called. *)
Record Game : Type := mkGame {
  player : V2.SphericalPlayer;
  fullscreen : bool;
  fps_counter_enabled : bool;
  entity_counter_enabled : bool;
  quit_requested : bool
}.

(** [input(key)].  An exception raised by the call of a branch leaves the
    handler before anything is assigned. *)
Definition input (g : Game) (key : string) : result Game :=
  if String.eqb key "escape" then
    Ok (mkGame (player g) (fullscreen g) (fps_counter_enabled g)
          (entity_counter_enabled g) true)
  else if String.eqb key "space" then
    Ok (mkGame (V2.jump (player g)) (fullscreen g) (fps_counter_enabled g)
          (entity_counter_enabled g) (quit_requested g))
  else if String.eqb key "r" then
    match V2.reset_position (player g) with
    | Ok p =>
        Ok (mkGame p (fullscreen g) (fps_counter_enabled g)
              (entity_counter_enabled g) (quit_requested g))
    | Raise e => Raise e
    end
  else if String.eqb key "f" then
    Ok (mkGame (player g) (negb (fullscreen g)) (fps_counter_enabled g)
          (entity_counter_enabled g) (quit_requested g))
  else if String.eqb key "tab" then
    Ok (mkGame (player g) (fullscreen g) (negb (fps_counter_enabled g))
          (negb (entity_counter_enabled g)) (quit_requested g))
  else Ok g.

End V2_Host.

(** ** [buildv06.6.25.py]: [class PerformanceMonitor] *)

Module Buildv06_Host.

Record PerformanceMonitor : Type := mkMonitor {
  fps_samples : list R;
  last_log_time : R;
  log_interval : R
}.

(** [__init__(self)] *)
Definition monitor_init (now : R) : PerformanceMonitor := mkMonitor [] now 10.

(** [update(self)]: this variant has no [max_samples]. *)
Definition monitor_update (m : PerformanceMonitor) (dt current_time : R)
  : PerformanceMonitor * option V2_Host.FpsStats :=
  let samples :=
    if Rlt_dec 0 dt then fps_samples m ++ [1 / dt] else fps_samples m in
  if Rle_dec (log_interval m) (current_time - last_log_time m) then
    (mkMonitor [] current_time (log_interval m), V2_Host.fps_stats samples)
  else
    (mkMonitor samples (last_log_time m) (log_interval m), None).

(** Consecutive frames, each given as [(dt, current_time)]. *)
Definition monitor_run (m : PerformanceMonitor) (frames : list (R * R))
  : PerformanceMonitor :=
  fold_left (fun m fr => fst (monitor_update m (fst fr) (snd fr))) frames m.

End Buildv06_Host.

(** ** [b33134k6.6.25.py]: [create_lowpoly_sphere] *)

Module B33134k6_Mesh.

(** [range(n)] *)
Definition range (n : Z) : list Z := map Z.of_nat (seq 0 (Z.to_nat n)).

(** What is handed to [Mesh(...)]. *)
Record Mesh : Type := mkMesh {
  vertices : list Vec3;
  triangles : list (Z * Z * Z)
}.

(** The vertex of ring [i] and column [j]. *)
Definition vertex (segments i j : Z) : Vec3 :=
  let lat := PI * IZR i / IZR segments in
  let lon := 2 * PI * IZR j / IZR segments in
  let x := sin lat * cos lon in
  let y := cos lat in
  let z := sin lat * sin lon in
  mkVec3 x y z.

(** The two triangles of the quad at ring [i], column [j]. *)
Definition quad (segments i j : Z) : list (Z * Z * Z) :=
  let a := (i * (segments + 1) + j)%Z in
  let b := (a + 1)%Z in
  let c := ((i + 1) * (segments + 1) + j)%Z in
  let d := (c + 1)%Z in
  [(a, c, b); (b, c, d)].

(** [create_lowpoly_sphere(segments)].  With [segments = 0] the first
    iteration divides by zero ([pi * i / segments]) and Python raises
    [ZeroDivisionError]; with a negative [segments] no loop body runs.
    The [lru_cache] wrapper changes nothing: the function reads only its
    argument. *)
Definition create_lowpoly_sphere (segments : Z) : result Mesh :=
  if (segments =? 0)%Z then Raise "ZeroDivisionError"
  else
    let verts :=
      flat_map (fun i => map (fun j => vertex segments i j)
                           (range (segments + 1)))
        (range (segments + 1)) in
    let tris :=
      flat_map (fun i => flat_map (fun j => quad segments i j)
                           (range segments))
        (range segments) in
    Ok (mkMesh verts tris).

(** An index a triangle may use in a mesh with [n] vertices. *)
Definition index_ok (n : nat) (k : Z) : Prop := (0 <= k < Z.of_nat n)%Z.

Definition triangle_ok (n : nat) (t : Z * Z * Z) : Prop :=
  let '(a, b, c) := t in index_ok n a /\ index_ok n b /\ index_ok n c.

End B33134k6_Mesh.

(** ** Observations used by the further properties *)

(** A monitor as [__init__] and [update] leave it: the counter is the
    length of the buffer, within [max_samples], and every sample is a
    positive rate. *)
Definition monitor_inv (m : V2_Host.PerformanceMonitor) : Prop :=
  V2_Host.sample_count m = Z.of_nat (List.length (V2_Host.fps_samples m))
  /\ (V2_Host.sample_count m <= V2_Host.max_samples m)%Z
  /\ (0 <= V2_Host.max_samples m)%Z
  /\ Forall (fun x => 0 < x) (V2_Host.fps_samples m).

(** The attributes of a [v2.py] player that are set once, in [__init__]. *)
Definition same_settings (a b : V2.SphericalPlayer) : Prop :=
  V2.speed a = V2.speed b
  /\ V2.jump_height a = V2.jump_height b
  /\ V2.height a = V2.height b
  /\ V2.mouse_sensitivity a = V2.mouse_sensitivity b
  /\ V2.start_pos a = V2.start_pos b.

(** The camera pitch is within its stops. *)
Definition pitch_ok (x : R) : Prop := -90 <= x <= 90.

(** What every call on a [v2.py] player keeps, relative to the player [s0]
    it started from: the settings, the pitch within its stops, and a memo
    that holds the normal of a position with its key. *)
Definition well_kept (s0 s : V2.SphericalPlayer) : Prop :=
  same_settings s s0
  /\ pitch_ok (V2.camera_pivot_rotation_x s)
  /\ V2.cache_inv s.
(** ** Vector algebra *)

Lemma Vec3_eq (a b : Vec3) :
  vx a = vx b -> vy a = vy b -> vz a = vz b -> a = b.
Proof. destruct a, b; simpl; intros; subst; reflexivity. Qed.

Ltac vec_unfold :=
  unfold length_squared, dot, vadd, vsub, vneg, vscale, vzero in *; simpl in *.

Ltac vec_eq := apply Vec3_eq; vec_unfold; try lra; try (field; assumption).

Lemma length_squared_nonneg (a : Vec3) : 0 <= length_squared a.
Proof. vec_unfold. nra. Qed.

Lemma length_squared_zero (a : Vec3) : length_squared a = 0 -> a = vzero.
Proof.
  destruct a as [x y z]; vec_unfold; intros H.
  assert (x = 0) by nra. assert (y = 0) by nra. assert (z = 0) by nra.
  subst; reflexivity.
Qed.

Lemma length_zero : length vzero = 0.
Proof.
  unfold length. replace (length_squared vzero) with 0.
  - apply sqrt_0.
  - vec_unfold. lra.
Qed.

Lemma length_pos (a : Vec3) : a <> vzero -> 0 < length a.
Proof.
  intros Ha. unfold length. apply sqrt_lt_R0.
  destruct (Req_dec_T (length_squared a) 0) as [E | N].
  - elim Ha. now apply length_squared_zero.
  - pose proof (length_squared_nonneg a). lra.
Qed.

Lemma length_sqr (a : Vec3) : length a * length a = length_squared a.
Proof. apply sqrt_sqrt, length_squared_nonneg. Qed.

Lemma normalized_zero : normalized vzero = vzero.
Proof.
  unfold normalized. destruct (Req_dec_T _ _) as [_ | N]; [reflexivity |].
  elim N. vec_unfold. lra.
Qed.

Lemma normalized_nonzero (a : Vec3) :
  a <> vzero -> normalized a = a *v (/ length a).
Proof.
  intros Ha. unfold normalized.
  destruct (Req_dec_T _ _) as [E | _]; [| reflexivity].
  elim Ha. now apply length_squared_zero.
Qed.

(** [|a.normalized()|^2 = 1] away from the zero vector. *)
Lemma normalized_unit (a : Vec3) :
  a <> vzero -> length_squared (normalized a) = 1.
Proof.
  intros Ha. rewrite (normalized_nonzero a Ha).
  pose proof (length_pos a Ha) as Hl.
  pose proof (length_sqr a) as Hs.
  unfold length_squared, dot, vscale in *; simpl in *.
  set (l := length a) in *.
  replace (vx a * / l * (vx a * / l) + vy a * / l * (vy a * / l)
           + vz a * / l * (vz a * / l))
    with ((vx a * vx a + vy a * vy a + vz a * vz a) * (/ l * / l)) by ring.
  rewrite <- Hs. field. lra.
Qed.

(** A normal is a unit vector or, in the degenerate case, the zero vector. *)
Definition unit_or_zero (n : Vec3) : Prop :=
  length_squared n = 1 \/ n = vzero.

Lemma normalized_unit_or_zero (a : Vec3) : unit_or_zero (normalized a).
Proof.
  destruct (Req_dec_T (length_squared a) 0) as [E | N].
  - right. apply length_squared_zero in E. subst. apply normalized_zero.
  - left. apply normalized_unit. intros ->. apply N. vec_unfold. lra.
Qed.

Lemma length_scale_unit (n : Vec3) (t : R) :
  length_squared n = 1 -> 0 <= t -> length (n *v t) = t.
Proof.
  intros Hn Ht. unfold length.
  replace (length_squared (n *v t)) with (t * t).
  - now apply sqrt_square.
  - vec_unfold. nra.
Qed.

(** Where the rounding lands: a real within half a unit of an integer. *)
Lemma round_half_even_near (x : R) (z : Z) :
  IZR z - 1 / 2 < x < IZR z + 1 / 2 -> round_half_even x = z.
Proof.
  intros [Hlo Hhi]. unfold round_half_even.
  destruct (base_Int_part x) as [Hf1 Hf2].
  assert (Hcase : Int_part x = z \/ Int_part x = (z - 1)%Z).
  { assert (IZR (Int_part x) < IZR (z + 1)) by (rewrite plus_IZR; lra).
    assert (IZR (z - 2) < IZR (Int_part x)) by (rewrite minus_IZR; lra).
    apply lt_IZR in H, H0. lia. }
  destruct Hcase as [E | E]; rewrite E.
  - destruct (Rlt_dec _ _) as [_ | N]; [reflexivity | lra].
  - rewrite E, minus_IZR in Hf1, Hf2.
    rewrite minus_IZR.
    destruct (Rlt_dec _ _) as [L | _]; [lra |].
    destruct (Rlt_dec _ _) as [_ | N]; [lia | lra].
Qed.

Lemma round1_near (x : R) (z : Z) :
  IZR z - 1 / 2 < x * 10 < IZR z + 1 / 2 -> round1 x = z.
Proof. apply round_half_even_near. Qed.

Lemma round2_near (x : R) (z : Z) :
  IZR z - 1 / 2 < x * 100 < IZR z + 1 / 2 -> round2 x = z.
Proof. apply round_half_even_near. Qed.

Lemma PosTuple_eqb_eq (a b : PosTuple) : PosTuple_eqb a b = true <-> a = b.
Proof.
  destruct a as [[a1 a2] a3], b as [[b1 b2] b3]; simpl.
  rewrite !andb_true_iff, !Z.eqb_eq. split.
  - intros [[-> ->] ->]; reflexivity.
  - intros E; inversion E; auto.
Qed.

Lemma PosTuple_eqb_refl (a : PosTuple) : PosTuple_eqb a a = true.
Proof. now apply PosTuple_eqb_eq. Qed.


Lemma vsub_center (p : Vec3) : p -v PLANET_CENTER = p.
Proof. unfold PLANET_CENTER. vec_eq. Qed.

Lemma normal_at_eq (p : Vec3) : normal_at p = normalized p.
Proof. unfold normal_at. now rewrite vsub_center. Qed.

Lemma normal_at_unit_or_zero (p : Vec3) : unit_or_zero (normal_at p).
Proof. apply normalized_unit_or_zero. Qed.

Lemma dot_comm (a b : Vec3) : dot a b = dot b a.
Proof. unfold dot. ring. Qed.

Lemma dot_scale_l (a b : Vec3) (k : R) : dot (a *v k) b = k * dot a b.
Proof. unfold dot, vscale; simpl. ring. Qed.

Lemma dot_add_l (a b c : Vec3) : dot (a +v b) c = dot a c + dot b c.
Proof. unfold dot, vadd; simpl. ring. Qed.

Lemma dot_sub_l (a b c : Vec3) : dot (a -v b) c = dot a c - dot b c.
Proof. unfold dot, vsub; simpl. ring. Qed.

Lemma dot_zero_r (a : Vec3) : dot a vzero = 0.
Proof. unfold dot, vzero; simpl. ring. Qed.

(** Removing the part of [v] along a unit (or zero) [n] leaves nothing
    along [n]. *)
Lemma tangential_dot (v n : Vec3) :
  unit_or_zero n -> dot (tangential v n) n = 0.
Proof.
  intros [Hn | ->]; unfold tangential.
  - rewrite dot_sub_l, dot_scale_l. unfold length_squared in Hn.
    rewrite Hn. ring.
  - apply dot_zero_r.
Qed.

(** The tangential part ignores whatever is added along [n]. *)
Lemma tangential_add_normal (v n : Vec3) (k : R) :
  unit_or_zero n -> tangential (v +v n *v k) n = tangential v n.
Proof.
  intros [Hn | ->]; unfold tangential.
  - rewrite dot_add_l, dot_scale_l. unfold length_squared in Hn. rewrite Hn.
    apply Vec3_eq; unfold vsub, vadd, vscale; simpl; ring.
  - vec_eq.
Qed.


(** *** Normals and lengths on the vertical axis *)

Lemma length_axis_y (y : R) : 0 <= y -> length (mkVec3 0 y 0) = y.
Proof.
  intros Hy. unfold length, length_squared, dot; simpl.
  replace (0 * 0 + y * y + 0 * 0) with (y * y) by ring.
  now apply sqrt_square.
Qed.

Lemma normalized_axis_y (y : R) :
  0 < y -> normalized (mkVec3 0 y 0) = mkVec3 0 1 0.
Proof.
  intros Hy. rewrite normalized_nonzero.
  - rewrite length_axis_y by lra. apply Vec3_eq; simpl; field; lra.
  - intros H. injection H as H. lra.
Qed.

Lemma normal_at_axis_y (y : R) : 0 < y -> normal_at (mkVec3 0 y 0) = mkVec3 0 1 0.
Proof. intros Hy. rewrite normal_at_eq. now apply normalized_axis_y. Qed.

Lemma normal_at_center : normal_at PLANET_CENTER = vzero.
Proof. rewrite normal_at_eq. apply normalized_zero. Qed.

(** *** Keys of the positions used in the examples *)

Lemma round1_0 : round1 0 = 0%Z.
Proof. apply round1_near. lra. Qed.

Lemma round1_33 : round1 33 = 330%Z.
Proof. apply round1_near. lra. Qed.

Lemma round1_4_100 : round1 (4 / 100) = 0%Z.
Proof. apply round1_near. lra. Qed.

Lemma pos_tuple1_drift :
  pos_tuple1 (mkVec3 (4 / 100) 33 0) = pos_tuple1 (mkVec3 0 33 0).
Proof.
  unfold pos_tuple1; simpl. now rewrite round1_0, round1_33, round1_4_100.
Qed.

(** Off the axis the normal is not the pole's. *)
Lemma normal_at_drift : normal_at (mkVec3 (4 / 100) 33 0) <> mkVec3 0 1 0.
Proof.
  rewrite normal_at_eq. intros H.
  assert (Hp : mkVec3 (4 / 100) 33 0 <> vzero)
    by (intros E; injection E as E; lra).
  rewrite (normalized_nonzero _ Hp) in H.
  pose proof (length_pos _ Hp) as Hl.
  apply (f_equal vx) in H. simpl in H.
  pose proof (Rinv_0_lt_compat _ Hl). nra.
Qed.

(** Two different unit vectors have a dot product below 1. *)
Lemma dot_unit_lt (a b : Vec3) :
  length_squared a = 1 -> length_squared b = 1 -> a <> b -> dot a b < 1.
Proof.
  intros Ha Hb Hab.
  destruct (Rlt_dec (dot a b) 1) as [L | N]; [exact L | exfalso].
  apply Hab. unfold length_squared, dot in *.
  destruct a as [a1 a2 a3], b as [b1 b2 b3]; simpl in *.
  assert (H : length_squared (mkVec3 (a1 - b1) (a2 - b2) (a3 - b3)) = 0).
  { pose proof (length_squared_nonneg (mkVec3 (a1 - b1) (a2 - b2) (a3 - b3)))
      as Hge.
    unfold length_squared, dot in *; simpl in *. nra. }
  apply length_squared_zero in H. injection H as H1 H2 H3.
  f_equal; lra.
Qed.

(** *** Lengths *)

Lemma length_scale (v : Vec3) (k : R) :
  0 <= k -> length (v *v k) = k * length v.
Proof.
  intros Hk. unfold length.
  replace (length_squared (v *v k)) with (k * k * length_squared v)
    by (vec_unfold; ring).
  rewrite sqrt_mult_alt by nra. now rewrite sqrt_square.
Qed.

Lemma length_le_of_sq (p : Vec3) (t : R) :
  0 <= t -> length_squared p <= t * t -> length p <= t.
Proof.
  intros Ht H. unfold length. rewrite <- (sqrt_square t Ht).
  apply sqrt_le_1_alt. exact H.
Qed.

Lemma length_gt_of_sq (p : Vec3) (t : R) :
  0 <= t -> t * t < length_squared p -> t < length p.
Proof.
  intros Ht H. unfold length. rewrite <- (sqrt_square t Ht) at 1.
  apply sqrt_lt_1_alt. split; [nra | exact H].
Qed.

Lemma length_lt_of_sq (p : Vec3) (t : R) :
  0 < t -> length_squared p < t * t -> length p < t.
Proof.
  intros Ht H. unfold length. rewrite <- (sqrt_square t) by lra.
  apply sqrt_lt_1_alt. split; [apply length_squared_nonneg | exact H].
Qed.




(** Decide the comparisons of a concrete computation. *)
Ltac Rdecide :=
  repeat match goal with
  | |- context [Rle_dec ?a ?b] => destruct (Rle_dec a b); try lra
  | |- context [Rlt_dec ?a ?b] => destruct (Rlt_dec a b); try lra
  | |- context [Req_dec_T ?a ?b] => destruct (Req_dec_T a b); try lra
  end.

(** ** Further facts on vectors, rounding and clamping *)

Module More_Facts.

(** *** Rounding and clamping *)

Lemma round_half_even_error (x : R) :
  - (1 / 2) <= x - IZR (round_half_even x) <= 1 / 2.
Proof.
  unfold round_half_even.
  destruct (base_Int_part x) as [H1 H2].
  destruct (Rlt_dec (x - IZR (Int_part x)) (1 / 2)) as [L | N].
  - lra.
  - destruct (Rlt_dec (1 / 2) (x - IZR (Int_part x))) as [L2 | N2].
    + rewrite plus_IZR. lra.
    + destruct (Z.even (Int_part x)); [lra |]. rewrite plus_IZR. lra.
Qed.

Lemma round_equal_close (k x y : R) :
  0 < k -> round_half_even (x * k) = round_half_even (y * k) ->
  - (1 / k) <= x - y <= 1 / k.
Proof.
  intros Hk E.
  pose proof (round_half_even_error (x * k)) as Hx.
  pose proof (round_half_even_error (y * k)) as Hy.
  rewrite E in Hx.
  assert (H : -1 <= (x - y) * k <= 1) by lra.
  assert (Hi : 0 < / k) by now apply Rinv_0_lt_compat.
  unfold Rdiv. rewrite Rmult_1_l.
  replace (x - y) with ((x - y) * k * / k) by (field; lra).
  split; nra.
Qed.

Lemma clamp_bounds (v lo hi : R) : lo <= hi -> lo <= clamp v lo hi <= hi.
Proof.
  intros H. unfold clamp. split.
  - apply Rmax_r.
  - apply Rmax_lub; [apply Rmin_r | exact H].
Qed.

Lemma clamp_pitch (v : R) : pitch_ok (clamp v (-90) 90).
Proof. apply clamp_bounds. lra. Qed.

(** *** Normalising *)

Lemma normalized_scale (a : Vec3) :
  exists k, 0 <= k /\ normalized a = a *v k.
Proof.
  destruct (Req_dec_T (length_squared a) 0) as [E | N].
  - exists 0. split; [lra |].
    apply length_squared_zero in E. subst. rewrite normalized_zero. vec_eq.
  - assert (Ha : a <> vzero) by (intros ->; apply N; vec_unfold; lra).
    exists (/ length a). split.
    + left. apply Rinv_0_lt_compat. now apply length_pos.
    + now apply normalized_nonzero.
Qed.

Lemma normalized_orthogonal (a b : Vec3) :
  dot a b = 0 -> dot (normalized a) b = 0.
Proof.
  intros H. destruct (normalized_scale a) as [k [_ ->]].
  rewrite dot_scale_l, H. ring.
Qed.

Lemma length_zero_inv (a : Vec3) : length a = 0 -> a = vzero.
Proof.
  intros H. apply length_squared_zero.
  apply sqrt_eq_0; [apply length_squared_nonneg | exact H].
Qed.

Lemma length_nonneg (a : Vec3) : 0 <= length a.
Proof. apply sqrt_pos. Qed.

Lemma dot_add_r (a b c : Vec3) : dot a (b +v c) = dot a b + dot a c.
Proof. unfold dot, vadd; simpl. ring. Qed.

Lemma dot_scale_r (a b : Vec3) (k : R) : dot a (b *v k) = k * dot a b.
Proof. unfold dot, vscale; simpl. ring. Qed.

Lemma combination_length_squared (f r : Vec3) (a b : R) :
  length_squared (f *v a +v r *v b)
  = a * a * length_squared f + 2 * (a * b) * dot f r
    + b * b * length_squared r.
Proof. unfold length_squared, dot, vadd, vscale; simpl. ring. Qed.

Lemma length_of_unit (a : Vec3) : length_squared a = 1 -> length a = 1.
Proof. intros H. unfold length. rewrite H. apply sqrt_1. Qed.

(** Dividing a non-zero pair by its norm gives a pair of norm 1. *)
Lemma normalised_pair (x z : R) :
  x <> 0 \/ z <> 0 ->
  let l := sqrt (x * x + z * z) in
  (z / l) * (z / l) + (x / l) * (x / l) = 1.
Proof.
  intros H l.
  assert (Hpos : 0 < x * x + z * z) by (destruct H; nra).
  assert (Hl : 0 < l) by (apply sqrt_lt_R0; exact Hpos).
  assert (Hs : l * l = x * x + z * z) by (apply sqrt_sqrt; lra).
  unfold Rdiv.
  replace (z * / l * (z * / l) + x * / l * (x * / l))
    with ((x * x + z * z) * (/ l * / l)) by ring.
  rewrite <- Hs. field. lra.
Qed.

Lemma normalized_times_length (a : Vec3) : normalized a *v length a = a.
Proof.
  destruct (Req_dec_T (length_squared a) 0) as [E | N].
  - apply length_squared_zero in E. subst.
    rewrite normalized_zero, length_zero. vec_eq.
  - assert (Ha : a <> vzero) by (intros ->; apply N; vec_unfold; lra).
    rewrite (normalized_nonzero a Ha).
    pose proof (length_pos a Ha).
    apply Vec3_eq; simpl; field; lra.
Qed.

Lemma normalized_of_unit (n : Vec3) : length_squared n = 1 -> normalized n = n.
Proof.
  intros H.
  assert (Hn : n <> vzero) by (intros ->; vec_unfold; lra).
  rewrite (normalized_nonzero n Hn), (length_of_unit n H).
  apply Vec3_eq; simpl; field.
Qed.

(** Stretching by a positive factor does not change the direction. *)
Lemma normalized_pos_scale (n : Vec3) (k : R) :
  length_squared n = 1 -> 0 < k -> normalized (n *v k) = n.
Proof.
  intros Hn Hk.
  assert (Hl : length (n *v k) = k)
    by (rewrite length_scale by lra; rewrite (length_of_unit n Hn); ring).
  assert (Hz : n *v k <> vzero).
  { intros E. rewrite E, length_zero in Hl. lra. }
  rewrite (normalized_nonzero _ Hz), Hl.
  apply Vec3_eq; simpl; field; lra.
Qed.

End More_Facts.

(** ** [v2.py] *)

Module V2_Theory.
Import V2.

Section Facts.

Variable P : Physics.

(** *** The memoised normal query *)

(** A query either misses (empty memo or another key) and refills with the
    reference normal, or hits and returns the stored vector untouched. *)
Lemma get_surface_normal_cases (s : SphericalPlayer) (p : Vec3) :
  (get_surface_normal s p
     = (set_cache s (Some (pos_tuple1 p, normal_at p)), normal_at p)
   /\ (cache s = None \/
       exists k n, cache s = Some (k, n) /\ k <> pos_tuple1 p))
  \/ (exists n, cache s = Some (pos_tuple1 p, n)
                /\ get_surface_normal s p = (s, n)).
Proof.
  unfold get_surface_normal, normal_at.
  destruct (cache s) as [[k n] |] eqn:Hc.
  - destruct (PosTuple_eqb (pos_tuple1 p) k) eqn:Hk.
    + apply PosTuple_eqb_eq in Hk. subst k. right. now exists n.
    + left. split; [reflexivity |]. right. exists k, n. split; [reflexivity |].
      intros ->. rewrite PosTuple_eqb_refl in Hk. discriminate.
  - left. split; [reflexivity | now left].
Qed.

Lemma get_surface_normal_state (s : SphericalPlayer) (p : Vec3) :
  exists c, fst (get_surface_normal s p) = set_cache s c
            /\ (c = cache s \/ c = Some (pos_tuple1 p, normal_at p)).
Proof.
  destruct (get_surface_normal_cases s p) as [[E _] | [n [Hc E]]]; rewrite E.
  - eexists; split; [reflexivity | now right].
  - exists (cache s). split; [| now left]. destruct s; reflexivity.
Qed.

Lemma cache_inv_normal (s : SphericalPlayer) (p : Vec3) :
  cache_inv s ->
  exists q, pos_tuple1 q = pos_tuple1 p
            /\ snd (get_surface_normal s p) = normal_at q.
Proof.
  intros Hinv.
  destruct (get_surface_normal_cases s p) as [[E _] | [n [Hc E]]]; rewrite E.
  - now exists p.
  - unfold cache_inv in Hinv. rewrite Hc in Hinv.
    destruct Hinv as [q [Hk Hn]]. exists q. simpl. now split.
Qed.

Lemma cache_inv_get (s : SphericalPlayer) (p : Vec3) :
  cache_inv s -> cache_inv (fst (get_surface_normal s p)).
Proof.
  intros Hinv.
  destruct (get_surface_normal_cases s p) as [[E _] | [n [Hc E]]]; rewrite E.
  - unfold cache_inv; simpl. now exists p.
  - exact Hinv.
Qed.

Lemma frame_normal_unit_or_zero (s : SphericalPlayer) :
  cache_inv s -> unit_or_zero (frame_normal s).
Proof.
  intros Hinv. unfold frame_normal.
  destruct (cache_inv_normal s (position s) Hinv) as [q [_ ->]].
  apply normal_at_unit_or_zero.
Qed.

Lemma cache_fresh_normal (s : SphericalPlayer) (p : Vec3) :
  cache_fresh_at s p -> snd (get_surface_normal s p) = normal_at p.
Proof.
  intros Hf.
  destruct (get_surface_normal_cases s p) as [[E _] | [n [Hc E]]]; rewrite E.
  - reflexivity.
  - unfold cache_fresh_at in Hf. rewrite Hc in Hf. simpl.
    destruct Hf as [Hf | Hf]; [now elim Hf | exact Hf].
Qed.

(** *** Movement input *)

Lemma move_input_ignores_cache (s : SphericalPlayer) c (fr : Frame) :
  move_input P (set_cache s c) fr = move_input P s fr.
Proof. reflexivity. Qed.

(** The friction test of line 147 reads the normalised [move_x], [move_z];
    it succeeds exactly when the raw input was zero. *)
Lemma friction_test_iff (s : SphericalPlayer) (fr : Frame) :
  (let '(move_x, move_z, _) := move_input P s fr in
   Reqb move_x 0 && Reqb move_z 0) = true <-> no_move_input fr.
Proof.
  unfold move_input, no_move_input.
  set (zx := (held (held_keys fr) "d" - held (held_keys fr) "a")%Z).
  set (zz := (held (held_keys fr) "w" - held (held_keys fr) "s")%Z).
  unfold Rneqb, Reqb.
  destruct (Req_dec_T (IZR zx) 0) as [Ex | Nx];
    destruct (Req_dec_T (IZR zz) 0) as [Ez | Nz]; simpl.
  - rewrite Ex, Ez.
    destruct (Req_dec_T 0 0) as [_ | N]; [| now elim N]. simpl.
    split; [| reflexivity]. intros _.
    split; now apply eq_IZR_R0.
  - split.
    + intros H. apply andb_true_iff in H. destruct H as [_ H].
      destruct (Req_dec_T _ 0) as [E | _]; [| discriminate].
      exfalso. apply Nz.
      assert (Hl : 0 < sqrt (IZR zx * IZR zx + IZR zz * IZR zz))
        by (apply sqrt_lt_R0; nra).
      unfold Rdiv in E. apply Rmult_integral in E.
      destruct E as [E | E]; [exact E |].
      pose proof (Rinv_0_lt_compat _ Hl). lra.
    + intros [_ Hz]. elim Nz. now rewrite Hz.
  - split.
    + intros H. apply andb_true_iff in H. destruct H as [H _].
      destruct (Req_dec_T _ 0) as [E | _]; [| discriminate].
      exfalso. apply Nx.
      assert (Hl : 0 < sqrt (IZR zx * IZR zx + IZR zz * IZR zz))
        by (apply sqrt_lt_R0; nra).
      unfold Rdiv in E. apply Rmult_integral in E.
      destruct E as [E | E]; [exact E |].
      pose proof (Rinv_0_lt_compat _ Hl). lra.
    + intros [Hx _]. elim Nx. now rewrite Hx.
  - split.
    + intros H. apply andb_true_iff in H. destruct H as [H _].
      destruct (Req_dec_T _ 0) as [E | _]; [| discriminate].
      exfalso. apply Nx.
      assert (Hl : 0 < sqrt (IZR zx * IZR zx + IZR zz * IZR zz))
        by (apply sqrt_lt_R0; nra).
      unfold Rdiv in E. apply Rmult_integral in E.
      destruct E as [E | E]; [exact E |].
      pose proof (Rinv_0_lt_compat _ Hl). lra.
    + intros [Hx _]. elim Nx. now rewrite Hx.
Qed.

(** *** One frame, branch by branch *)

Lemma update_lands (s : SphericalPlayer) (fr : Frame) :
  lands P s fr ->
  update P s fr =
    mkPlayer
      (normalized (integrated_position P s fr) *v target_distance P s)
      (apply_friction P (fst (fst (move_input P s fr)))
         (snd (fst (move_input P s fr)))
         (cancel_radial (integrated_velocity P s fr) (frame_normal s)))
      true (start_pos s)
      (mkVec3 (vx (rotation s))
         (vy (rotation s)
          + fst (mouse_velocity fr) * fst (mouse_sensitivity s) * dt fr)
         (vz (rotation s)))
      (clamp (camera_pivot_rotation_x s
              - snd (mouse_velocity fr) * snd (mouse_sensitivity s) * dt fr)
         (-90) 90)
      (speed s) (jump_height s) (height s) (mouse_sensitivity s)
      (cache (fst (get_surface_normal s (position s)))).
Proof.
  unfold lands, integrated_position, integrated_velocity, move_amount,
    frame_normal, target_distance, update.
  destruct (get_surface_normal_state s (position s)) as [c [Hs _]].
  destruct (get_surface_normal s (position s)) as [s1 n]. simpl in *.
  subst s1. rewrite move_input_ignores_cache.
  destruct (move_input P s fr) as [[mx mz] ma]. simpl.
  intros Hl. destruct (Rle_dec _ _) as [_ | N]; [reflexivity | now elim N].
Qed.

Lemma update_airborne (s : SphericalPlayer) (fr : Frame) :
  ~ lands P s fr ->
  update P s fr =
    mkPlayer (integrated_position P s fr) (integrated_velocity P s fr)
      false (start_pos s)
      (mkVec3 (vx (rotation s))
         (vy (rotation s)
          + fst (mouse_velocity fr) * fst (mouse_sensitivity s) * dt fr)
         (vz (rotation s)))
      (clamp (camera_pivot_rotation_x s
              - snd (mouse_velocity fr) * snd (mouse_sensitivity s) * dt fr)
         (-90) 90)
      (speed s) (jump_height s) (height s) (mouse_sensitivity s)
      (cache (fst (get_surface_normal s (position s)))).
Proof.
  unfold lands, integrated_position, integrated_velocity, move_amount,
    frame_normal, target_distance, update.
  destruct (get_surface_normal_state s (position s)) as [c [Hs _]].
  destruct (get_surface_normal s (position s)) as [s1 n]. simpl in *.
  subst s1. rewrite move_input_ignores_cache.
  destruct (move_input P s fr) as [[mx mz] ma]. simpl.
  intros Hl. destruct (Rle_dec _ _) as [L | _]; [now elim Hl | reflexivity].
Qed.

(** The grounded flag after a frame says which branch was taken. *)
Lemma update_grounded_iff (s : SphericalPlayer) (fr : Frame) :
  grounded (update P s fr) = true <-> lands P s fr.
Proof.
  destruct (Rle_dec (length (integrated_position P s fr)) (target_distance P s))
    as [L | N].
  - rewrite (update_lands s fr L). simpl. tauto.
  - rewrite (update_airborne s fr N). simpl. split; [discriminate | tauto].
Qed.

(** *** The velocity part of the collision response *)

Lemma cancel_radial_dot (v n : Vec3) :
  unit_or_zero n -> 0 <= dot (cancel_radial v n) n.
Proof.
  intros Hn. unfold cancel_radial.
  destruct (Rlt_dec (dot v n) 0) as [L | N]; [| lra].
  fold (tangential v n). rewrite (tangential_dot v n Hn). lra.
Qed.

Lemma cancel_radial_tangential (v n : Vec3) :
  unit_or_zero n -> tangential (cancel_radial v n) n = tangential v n.
Proof.
  intros Hn. unfold cancel_radial.
  destruct (Rlt_dec (dot v n) 0) as [L | N]; [| reflexivity].
  replace (v -v n *v dot v n) with (v +v n *v (- dot v n)) by vec_eq.
  now apply tangential_add_normal.
Qed.

Lemma apply_friction_scale (mx mz : R) (v : Vec3) :
  exists k, (k = FRICTION P \/ k = 1) /\ apply_friction P mx mz v = v *v k.
Proof.
  unfold apply_friction. destruct (Reqb mx 0 && Reqb mz 0).
  - exists (FRICTION P). split; [now left | reflexivity].
  - exists 1. split; [now right | vec_eq].
Qed.

Lemma snap_length (p : Vec3) (t : R) :
  p <> vzero -> 0 <= t -> length (normalized p *v t) = t.
Proof.
  intros Hp Ht. apply length_scale_unit; [| exact Ht].
  now apply normalized_unit.
Qed.

(** *** Evaluating a frame *)

Lemma frame_normal_fresh (s : SphericalPlayer) :
  cache_fresh_at s (position s) -> frame_normal s = normal_at (position s).
Proof. apply cache_fresh_normal. Qed.

Lemma move_input_none (s : SphericalPlayer) (fr : Frame) :
  no_move_input fr -> move_input P s fr = (0, 0, vzero).
Proof.
  intros [Hx Hz]. unfold move_input. rewrite Hx, Hz. unfold Rneqb.
  destruct (Req_dec_T 0 0) as [_ | N]; [reflexivity | now elim N].
Qed.

Lemma no_move_input_idle (d : R) : no_move_input (idle_frame d).
Proof. split; reflexivity. Qed.

(** *** Jump *)

(** The impulse of a successful jump along any direction [m]. *)
Lemma jump_dot (s : SphericalPlayer) (m : Vec3) :
  grounded s = true ->
  grounded (jump s) = false
  /\ dot (velocity (jump s)) m
     = dot (velocity s) m + jump_height s * dot (frame_normal s) m.
Proof.
  intros Hg. unfold jump, frame_normal. rewrite Hg.
  destruct (get_surface_normal_state s (position s)) as [c [Hs _]].
  destruct (get_surface_normal s (position s)) as [s1 n]. simpl in *.
  subst s1. simpl. split; [reflexivity |].
  rewrite dot_add_l, dot_scale_l. reflexivity.
Qed.

(** *** Construction, and what no call changes *)

Lemma update_start_pos (s : SphericalPlayer) (fr : Frame) :
  start_pos (update P s fr) = start_pos s.
Proof.
  destruct (Rle_dec (length (integrated_position P s fr))
              (target_distance P s)) as [L | N].
  - now rewrite (update_lands s fr L).
  - now rewrite (update_airborne s fr N).
Qed.

Lemma jump_start_pos (s : SphericalPlayer) :
  start_pos (jump s) = start_pos s.
Proof.
  unfold jump. destruct (grounded s); [| reflexivity].
  destruct (get_surface_normal_state s (position s)) as [c [Hs _]].
  destruct (get_surface_normal s (position s)) as [s1 n]. simpl in *.
  now subst s1.
Qed.

(** [reset_position] and [__init__] stop at their [copy] call. *)
Lemma reset_position_raises (s : SphericalPlayer) :
  reset_position s = Raise "AttributeError".
Proof. reflexivity. Qed.

Lemma init_raises (pos : Vec3) : __init__ P pos = Raise "AttributeError".
Proof. reflexivity. Qed.

Lemma start_pos_call (s s' : SphericalPlayer) (c : Call) :
  call P s c = Ok s' -> start_pos s' = start_pos s.
Proof.
  destruct c as [fr | |]; simpl; intros E.
  - injection E as <-. apply update_start_pos.
  - injection E as <-. apply jump_start_pos.
  - discriminate.
Qed.

Lemma start_pos_run (cs : list Call) (s s' : SphericalPlayer) :
  run P s cs = Ok s' -> start_pos s' = start_pos s.
Proof.
  revert s. induction cs as [| c cs IH]; intros s; simpl; intros E.
  - now injection E as <-.
  - destruct (call P s c) as [s1 | e] eqn:Ec; [| discriminate].
    rewrite (IH _ E). now apply (start_pos_call s s1 c).
Qed.

(** *** The flag and the position after a frame *)

Lemma snap_cases (p : Vec3) (t : R) :
  0 <= t ->
  length (normalized p *v t -v PLANET_CENTER) = t
  \/ normalized p *v t = PLANET_CENTER.
Proof.
  intros Ht. destruct (Req_dec_T (length_squared p) 0) as [E | N].
  - right. apply length_squared_zero in E. subst p.
    rewrite normalized_zero. unfold PLANET_CENTER. vec_eq.
  - left. rewrite vsub_center. apply snap_length; [| exact Ht].
    intros ->. apply N. vec_unfold. lra.
Qed.

Lemma update_grounded_position (s : SphericalPlayer) (fr : Frame) :
  0 <= target_distance P s ->
  let s' := update P s fr in
  (grounded s' = true ->
   length (position s' -v PLANET_CENTER) = target_distance P s'
   \/ position s' = PLANET_CENTER)
  /\ (grounded s' = false ->
      target_distance P s' < length (position s' -v PLANET_CENTER)).
Proof.
  intros Ht s'. subst s'.
  destruct (Rle_dec (length (integrated_position P s fr))
              (target_distance P s)) as [L | N].
  - rewrite (update_lands s fr L). simpl. split; [| discriminate].
    intros _. unfold target_distance in *. simpl. now apply snap_cases.
  - rewrite (update_airborne s fr N). simpl. split; [discriminate |].
    intros _. rewrite vsub_center. unfold target_distance in *. simpl. lra.
Qed.

(** *** Friction and steering *)

Lemma cache_inv_update (s : SphericalPlayer) (fr : Frame) :
  cache_inv s -> cache_inv (update P s fr).
Proof.
  intros Hinv.
  pose proof (cache_inv_get s (position s) Hinv) as H.
  destruct (Rle_dec (length (integrated_position P s fr))
              (target_distance P s)) as [L | N].
  - rewrite (update_lands s fr L). exact H.
  - rewrite (update_airborne s fr N). exact H.
Qed.

(** Gravity acts along the frame's normal only. *)
Lemma integrated_tangential (s : SphericalPlayer) (fr : Frame) :
  unit_or_zero (frame_normal s) ->
  tangential (integrated_velocity P s fr) (frame_normal s)
  = tangential (velocity s) (frame_normal s).
Proof.
  intros Hn. unfold integrated_velocity, integrate. simpl.
  replace (velocity s +v -v frame_normal s *v GRAVITY P *v dt fr)
    with (velocity s +v frame_normal s *v (- (GRAVITY P * dt fr)))
    by vec_eq.
  now apply tangential_add_normal.
Qed.

Lemma apply_friction_none (s : SphericalPlayer) (fr : Frame) (v : Vec3) :
  no_move_input fr ->
  apply_friction P (fst (fst (move_input P s fr)))
    (snd (fst (move_input P s fr))) v = v *v FRICTION P.
Proof.
  intros H. apply (friction_test_iff s fr) in H.
  destruct (move_input P s fr) as [[mx mz] ma]. simpl.
  unfold apply_friction. now rewrite H.
Qed.

Lemma apply_friction_steering (s : SphericalPlayer) (fr : Frame) (v : Vec3) :
  ~ no_move_input fr ->
  apply_friction P (fst (fst (move_input P s fr)))
    (snd (fst (move_input P s fr))) v = v.
Proof.
  intros H. pose proof (friction_test_iff s fr) as Hiff.
  destruct (move_input P s fr) as [[mx mz] ma]. simpl.
  unfold apply_friction.
  destruct (Reqb mx 0 && Reqb mz 0); [| reflexivity].
  elim H. now apply Hiff.
Qed.




(** *** The speed over frames without input *)





(** A run whose frames share their normal is a run without that
    condition, once the frames have a non-negative duration. *)
Lemma friction_run_idle (n : Vec3) (frs : list Frame) :
  forall s, Forall (fun fr => 0 <= dt fr) frs ->
  friction_run P n s frs -> idle_run P s frs.
Proof.
  induction frs as [| fr frs IH]; intros s Hall Hrun.
  - constructor.
  - inversion Hrun as [| s1 fr1 frs1 Hno Hg Hn Hrest]; subst.
    inversion Hall as [| fr2 frs2 Hd Hds]; subst.
    constructor; auto.
Qed.

(** *** Movement in the air *)

Lemma move_amount_air (s : SphericalPlayer) (fr : Frame) :
  grounded s = false ->
  move_amount P s fr = move_amount P (with_grounded s true) fr *v AIR_CONTROL P.
Proof.
  intros Hg. unfold move_amount, move_input. rewrite Hg. simpl.
  destruct (Rneqb _ 0 || Rneqb _ 0); simpl; vec_eq.
Qed.

End Facts.

End V2_Theory.

(** ** [b33132.0.py] *)

Module B33132_Theory.
Import B33132.

Lemma player_update_grounded_position (P : Physics) (s : SphericalPlayer)
    (fr : Frame) :
  0 <= target_distance P s ->
  let s' := update P s fr in
  (grounded s' = true ->
   length (position s' -v PLANET_CENTER) = target_distance P s'
   \/ position s' = PLANET_CENTER)
  /\ (grounded s' = false ->
      target_distance P s' < length (position s' -v PLANET_CENTER)).
Proof.
  intros Ht s'. subst s'. unfold update, target_distance in *.
  destruct (move_input P s fr (get_surface_normal (position s)))
    as [[mx mz] ma].
  destruct (Rle_dec _ _) as [L | N]; simpl.
  - split; [| discriminate]. intros _. now apply V2_Theory.snap_cases.
  - split; [discriminate |]. intros _. rewrite vsub_center. lra.
Qed.

(** A frame that starts where [reset_position] puts the player: at the
    planet centre, at rest.  It leaves the player there and sets
    [grounded]. *)
Lemma center_frame (P : Physics) (s : SphericalPlayer) (d : R) :
  0 <= target_distance P s ->
  grounded (update P (reset_position s) (idle_frame d)) = true
  /\ position (update P (reset_position s) (idle_frame d)) = PLANET_CENTER.
Proof.
  intros Ht. unfold target_distance in Ht.
  unfold update, reset_position. cbn [position velocity height].
  unfold get_surface_normal. rewrite vsub_center.
  change (mkVec3 0 0 0) with vzero. rewrite normalized_zero.
  unfold move_input. cbn [held_keys idle_frame held Z.sub Z.add Z.opp].
  unfold Rneqb.
  destruct (Req_dec_T 0 0) as [_ | N]; [| now elim N].
  cbn [orb]. cbv beta iota zeta.
  match goal with
  | |- context [Rle_dec (length ?p) _] => replace p with vzero by vec_eq
  end.
  rewrite length_zero.
  destruct (Rle_dec 0 _) as [_ | N].
  - cbn [grounded position]. split; [reflexivity |].
    rewrite normalized_zero. unfold PLANET_CENTER. vec_eq.
  - now elim N.
Qed.

(** [reset_position] goes to the origin, which is what [__init__] stores
    as [start_pos]; the constructor itself stops at the unbound [Vec2]. *)
Lemma reset_position_origin (s : SphericalPlayer) :
  position (reset_position s) = vzero
  /\ velocity (reset_position s) = vzero
  /\ rotation (reset_position s) = vzero
  /\ camera_pivot_rotation_x (reset_position s) = 0
  /\ start_pos (reset_position s) = start_pos s
  /\ player = Raise "NameError".
Proof. repeat split. Qed.

End B33132_Theory.

(** ** [b33134k6.6.25.py] *)

Module B33134k6_Theory.
Import B33134k6.

Section Facts.

Variable G : Globals.

Lemma controller_update_lands (s : SphericalController) (fr : Frame) :
  lands G s fr ->
  update G s fr =
    mkController
      (normalized (integrated_position G s fr) *v SURFACE_R G)
      (if Rlt_dec (dot (integrated_velocity G s fr) (frame_up s)) 0
       then integrated_velocity G s fr
            -v frame_up s *v dot (integrated_velocity G s fr) (frame_up s)
       else integrated_velocity G s fr)
      true (frame_up s)
      (clamp (camera_pivot_rotation_x s
              - snd (mouse_velocity fr) * fst (mouse_sensitivity s))
         (-90) 90)
      (height s) (jump_height s) (speed s) (mouse_sensitivity s).
Proof.
  unfold lands, integrated_position, integrated_velocity, frame_up, update.
  intros Hl. destruct (Rle_dec _ _) as [_ | N]; [reflexivity | now elim N].
Qed.

Lemma controller_update_airborne (s : SphericalController) (fr : Frame) :
  ~ lands G s fr ->
  update G s fr =
    mkController (integrated_position G s fr) (integrated_velocity G s fr)
      false (frame_up s)
      (clamp (camera_pivot_rotation_x s
              - snd (mouse_velocity fr) * fst (mouse_sensitivity s))
         (-90) 90)
      (height s) (jump_height s) (speed s) (mouse_sensitivity s).
Proof.
  unfold lands, integrated_position, integrated_velocity, frame_up, update.
  intros Hl. destruct (Rle_dec _ _) as [L | _]; [now elim Hl | reflexivity].
Qed.

(** In the air the input is a force: it enters the velocity scaled by
    [AIR_CONTROL] and [dt]. *)
Lemma steer_airborne (s : SphericalController) (fr : Frame) (md : Vec3) :
  grounded s = false ->
  steer G s fr md = velocity s +v md *v speed s *v AIR_CONTROL G *v dt fr.
Proof. intros Hg. unfold steer. now rewrite Hg. Qed.

(** On the ground the velocity is blended towards the target, and scaled
    by [FRICTION] only when no key at all is held. *)
Lemma steer_grounded (s : SphericalController) (fr : Frame) (md : Vec3) :
  grounded s = true ->
  steer G s fr md =
    if any_held (held_keys fr)
    then velocity s *v 0.8 +v md *v speed s *v 0.2
    else (velocity s *v 0.8 +v md *v speed s *v 0.2) *v FRICTION G.
Proof.
  intros Hg. unfold steer. rewrite Hg.
  now destruct (any_held (held_keys fr)).
Qed.

Lemma move_direction_none (fr : Frame) (u : Vec3) :
  no_move_input fr -> move_direction fr u = vzero.
Proof.
  intros [Hx Hz]. unfold move_direction. rewrite Hx, Hz.
  match goal with
  | |- context [Rlt_dec 0 (length ?m)] =>
      replace m with vzero by (vec_eq; ring)
  end.
  rewrite length_zero.
  destruct (Rlt_dec 0 0) as [L | _]; [lra | reflexivity].
Qed.

End Facts.

(** *** The sliding controller, one frame of a tenth of a second *)

Lemma sliding_up : frame_up sliding = mkVec3 0 1 0.
Proof. apply normal_at_axis_y. lra. Qed.



Lemma sliding_idle_velocity :
  integrated_velocity globals sliding (idle_frame (1 / 10))
  = mkVec3 (72 / 100) (- (25 / 10)) 0.
Proof.
  unfold integrated_velocity.
  rewrite (move_direction_none _ _ (V2_Theory.no_move_input_idle _)), sliding_up.
  rewrite steer_grounded by reflexivity. simpl.
  apply Vec3_eq; simpl; lra.
Qed.


Lemma sliding_idle_lands : lands globals sliding (idle_frame (1 / 10)).
Proof.
  unfold lands, integrated_position. rewrite sliding_idle_velocity.
  apply length_le_of_sq; simpl; [lra |]. vec_unfold. lra.
Qed.

End B33134k6_Theory.

(** ** Evaluating the examples of [v2.py] *)

Module V2_Example_Facts.
Import V2 V2_Theory V2_Examples.

Lemma high_normal : frame_normal high = mkVec3 0 1 0.
Proof.
  rewrite frame_normal_fresh by exact I. apply normal_at_axis_y. simpl. lra.
Qed.

Lemma forward_frame_moves (d : R) : ~ no_move_input (forward_frame d).
Proof. intros [_ H]. discriminate H. Qed.

Lemma high_forward_move_amount (d : R) :
  move_amount physics high (forward_frame d) = mkVec3 0 0 (56 / 10).
Proof.
  unfold move_amount, move_input.
  cbn [held_keys forward_frame held String.eqb Ascii.eqb Bool.eqb Z.sub
       Z.add Z.opp Z.pos_sub forward right grounded speed high player_at
       negb].
  unfold Rneqb.
  destruct (Req_dec_T 0 0) as [_ | N]; [| now elim N].
  destruct (Req_dec_T 1 0) as [E | _]; [lra |].
  cbn [orb snd].
  replace (0 * 0 + 1 * 1) with 1 by ring. rewrite sqrt_1.
  apply Vec3_eq; simpl; lra.
Qed.

Lemma high_idle_move_amount (d : R) :
  move_amount physics high (idle_frame d) = vzero.
Proof.
  unfold move_amount.
  now rewrite (move_input_none physics _ _ (no_move_input_idle d)).
Qed.

Lemma high_forward_position :
  integrated_position physics high (forward_frame 1)
  = mkVec3 0 75 (56 / 10).
Proof.
  unfold integrated_position, integrated_velocity.
  rewrite high_forward_move_amount, high_normal.
  apply Vec3_eq; simpl; lra.
Qed.

Lemma high_idle_position :
  integrated_position physics high (idle_frame 1) = mkVec3 0 75 0.
Proof.
  unfold integrated_position, integrated_velocity.
  rewrite high_idle_move_amount, high_normal.
  apply Vec3_eq; simpl; lra.
Qed.

Lemma high_velocity (fr : Frame) :
  dt fr = 1 -> integrated_velocity physics high fr = mkVec3 0 (-25) 0.
Proof.
  intros Hd. unfold integrated_velocity, integrate. rewrite high_normal, Hd.
  apply Vec3_eq; simpl; lra.
Qed.

Lemma high_forward_airborne : ~ lands physics high (forward_frame 1).
Proof.
  unfold lands. rewrite high_forward_position.
  assert (H : target_distance physics high
              < length (mkVec3 0 75 (56 / 10))).
  { apply length_gt_of_sq; unfold target_distance; simpl; [lra |].
    vec_unfold. lra. }
  lra.
Qed.

Lemma high_idle_airborne : ~ lands physics high (idle_frame 1).
Proof.
  unfold lands. rewrite high_idle_position, length_axis_y by lra.
  unfold target_distance. simpl. lra.
Qed.

Lemma standing_lands : lands physics standing (idle_frame (1 / 10)).
Proof.
  unfold lands, integrated_position, integrated_velocity, move_amount.
  rewrite frame_normal_fresh by exact I.
  rewrite (move_input_none physics _ _ (no_move_input_idle _)).
  simpl position. rewrite normal_at_axis_y by lra.
  match goal with
  | |- length ?p <= _ =>
      replace p with (mkVec3 0 (3275 / 100) 0) by (apply Vec3_eq; simpl; lra)
  end.
  rewrite length_axis_y by lra. unfold target_distance. simpl. lra.
Qed.

(** With a stale memo the impulse is not along the normal at the avatar's
    position: the gain along that normal stays below [jump_height]. *)
Lemma drifted_normal : frame_normal drifted = normal_at (mkVec3 (4 / 100) 33 0).
Proof.
  unfold frame_normal, get_surface_normal. cbn [cache drifted player_at position].
  now rewrite <- pos_tuple1_drift, PosTuple_eqb_refl.
Qed.

Lemma jump_stale_memo :
  grounded drifted = true
  /\ position drifted <> PLANET_CENTER
  /\ dot (velocity (jump drifted)) (normal_at (position drifted))
     < dot (velocity drifted) (normal_at (position drifted))
       + jump_height drifted.
Proof.
  split; [reflexivity |]. split.
  - simpl. intros H. injection H as H. lra.
  - destruct (jump_dot drifted (normal_at (position drifted)) eq_refl)
      as [_ H].
    rewrite H, drifted_normal. cbn [position drifted player_at].
    assert (Hd : dot (normal_at (mkVec3 (4 / 100) 33 0))
                   (normal_at (mkVec3 0 33 0)) < 1).
    { apply dot_unit_lt.
      - rewrite normal_at_eq. apply normalized_unit.
        intros E. injection E as E. lra.
      - rewrite normal_at_eq. apply normalized_unit.
        intros E. injection E as E. lra.
      - rewrite (normal_at_axis_y 33) by lra. apply normal_at_drift. }
    simpl. nra.
Qed.

(** *** Sliding off the pole *)

Import More_Facts.

Lemma pole_normal (v : Vec3) (g : bool) :
  frame_normal (player_at (mkVec3 0 33 0) v g None) = mkVec3 0 1 0.
Proof.
  rewrite frame_normal_fresh by exact I. apply normal_at_axis_y. simpl. lra.
Qed.


(** A point a little to the side of the pole, a quarter unit below the
    stand-off distance, and its normal. *)
Lemma landing_length (x : R) :
  0 <= x <= 1 -> 32 < length (mkVec3 x (3275 / 100) 0) < 33.
Proof.
  intros Hx. split.
  - apply length_gt_of_sq; [lra |]. vec_unfold. nra.
  - apply length_lt_of_sq; [lra |]. vec_unfold. nra.
Qed.

Lemma landing_normal (x : R) :
  0 < x <= 1 ->
  let n := normalized (mkVec3 x (3275 / 100) 0) in
  length_squared n = 1
  /\ x / 33 < vx n < x / 32
  /\ vz n = 0.
Proof.
  intros Hx n.
  assert (Hq : mkVec3 x (3275 / 100) 0 <> vzero)
    by (intros E; injection E as E; lra).
  destruct (landing_length x ltac:(lra)) as [L1 L2].
  split; [now apply normalized_unit |].
  subst n. rewrite (normalized_nonzero _ Hq). cbn [vx vz vscale].
  set (L := length (mkVec3 x (3275 / 100) 0)) in *.
  assert (Hi : / L * L = 1) by (apply Rinv_l; lra).
  assert (Hp : 0 < / L) by (apply Rinv_0_lt_compat; lra).
  split; [split; nra | ring].
Qed.

(** **** [coasting], first frame *)





(** **** [coasting], second frame *)


(** **** [braking] against the [d] key *)

Lemma right_frame_moves (d : R) : ~ no_move_input (right_frame d).
Proof. intros [H _]. discriminate H. Qed.

Lemma braking_move_amount (d : R) :
  move_amount physics braking (right_frame d) = mkVec3 7 0 0.
Proof.
  unfold move_amount, move_input.
  cbn [held_keys right_frame held String.eqb Ascii.eqb Bool.eqb Z.sub
       Z.add Z.opp Z.pos_sub forward right grounded speed braking player_at
       negb].
  unfold Rneqb.
  destruct (Req_dec_T 1 0) as [E | _]; [lra |].
  cbn [orb snd].
  replace (1 * 1 + 0 * 0) with 1 by ring. rewrite sqrt_1.
  apply Vec3_eq; simpl; lra.
Qed.

Lemma braking_integration :
  integrated_velocity physics braking (right_frame (1 / 10))
  = mkVec3 (- 3) (- (5 / 2)) 0
  /\ integrated_position physics braking (right_frame (1 / 10))
     = braking_landing.
Proof.
  unfold integrated_position, integrated_velocity.
  rewrite braking_move_amount. unfold braking. rewrite pole_normal.
  split; apply Vec3_eq; simpl; lra.
Qed.

Lemma braking_lands : lands physics braking (right_frame (1 / 10)).
Proof.
  unfold lands. rewrite (proj2 braking_integration).
  pose proof (landing_length (4 / 10) ltac:(lra)) as H.
  unfold braking_landing, target_distance. simpl. lra.
Qed.

(** After the frame the velocity points into the ground at the player's
    new position. *)
Lemma braking_after :
  let s1 := update physics braking (right_frame (1 / 10)) in
  velocity s1 = mkVec3 (- 3) 0 0
  /\ normal_at (position s1) = normalized braking_landing
  /\ dot (velocity s1) (normal_at (position s1)) < 0.
Proof.
  intros s1. subst s1. rewrite (update_lands physics _ _ braking_lands).
  cbn [position velocity].
  rewrite (apply_friction_steering physics _ _ _ (right_frame_moves _)).
  destruct braking_integration as [Hv Hp]. rewrite Hv, Hp.
  destruct (landing_normal (4 / 10) ltac:(lra)) as [Hn [[Hx1 Hx2] _]].
  fold braking_landing in Hn, Hx1, Hx2.
  assert (E1 : cancel_radial (mkVec3 (- 3) (- (5 / 2)) 0)
                 (frame_normal braking) = mkVec3 (- 3) 0 0).
  { unfold braking. rewrite pole_normal. unfold cancel_radial.
    destruct (Rlt_dec _ 0) as [_ | N].
    - apply Vec3_eq; unfold dot; simpl; lra.
    - elim N. unfold dot; simpl. lra. }
  assert (E2 : normal_at (normalized braking_landing
                          *v target_distance physics braking)
               = normalized braking_landing).
  { rewrite normal_at_eq. apply normalized_pos_scale; [exact Hn |].
    unfold target_distance. simpl. lra. }
  rewrite E1, E2. split; [reflexivity |]. split; [reflexivity |].
  unfold dot. cbn [vx vy vz]. nra.
Qed.

End V2_Example_Facts.

(** ** [buildv06.6.25.py] *)

Module Buildv06_Theory.
Import Buildv06.

Lemma round2_0 : round2 0 = 0%Z.
Proof. apply round2_near. lra. Qed.

Lemma round2_33 : round2 33 = 3300%Z.
Proof. apply round2_near. lra. Qed.

Lemma round2_4_1000 : round2 (4 / 1000) = 0%Z.
Proof. apply round2_near. lra. Qed.

(** The normal of a frame is that of the rounded position: 0.004 off the
    axis it is still the pole's. *)
Lemma surface_normal_rounded :
  surface_normal (mkVec3 (4 / 1000) 33 0) = mkVec3 0 1 0
  /\ surface_normal (mkVec3 (4 / 1000) 33 0)
     <> normal_at (mkVec3 (4 / 1000) 33 0).
Proof.
  assert (E : surface_normal (mkVec3 (4 / 1000) 33 0) = mkVec3 0 1 0).
  { unfold surface_normal, pos_tuple2, get_surface_normal, Vec3_of_tuple.
    simpl. rewrite round2_0, round2_33, round2_4_1000.
    replace (0 / 100) with 0 by lra. replace (3300 / 100) with 33 by lra.
    apply normal_at_axis_y. lra. }
  split; [exact E |]. rewrite E, normal_at_eq. intros H.
  assert (Hp : mkVec3 (4 / 1000) 33 0 <> vzero)
    by (intros F; injection F as F; lra).
  rewrite (normalized_nonzero _ Hp) in H.
  pose proof (length_pos _ Hp) as Hl.
  apply (f_equal vx) in H. simpl in H.
  pose proof (Rinv_0_lt_compat _ Hl). nra.
Qed.

(** [jump] pushes along the entity's [up], whatever the surface normal. *)
Lemma jump_dot_up (s : SphericalPlayer) (up m : Vec3) :
  grounded s = true ->
  grounded (jump s up) = false
  /\ dot (velocity (jump s up)) m
     = dot (velocity s) m + jump_height s * dot up m.
Proof.
  intros Hg. unfold jump. rewrite Hg. simpl. split; [reflexivity |].
  rewrite dot_add_l, dot_scale_l. reflexivity.
Qed.

End Buildv06_Theory.

(** * The properties of the controller *)

Module Controller_Properties.
Import V2 V2_Theory V2_Examples V2_Example_Facts.

(** ** Ground collision *)

(** C1, as the code has it.  In a frame of [v2.py] whose integrated position
    ends at or below the stand-off distance and is not the planet centre,
    the resolver sets [grounded], puts the avatar at exactly the stand-off
    distance from the centre, and leaves a velocity with no inward component
    along the frame's surface normal: the cancellation changes only the
    component along that normal, and the result is then scaled by
    [FRICTION] or left as it is. *)
Theorem collision_resolves (P : Physics) (s : SphericalPlayer) (fr : Frame) :
  cache_inv s ->
  0 <= FRICTION P ->
  0 <= target_distance P s ->
  integrated_position P s fr <> PLANET_CENTER ->
  lands P s fr ->
  let s' := update P s fr in
  let n := frame_normal s in
  let v := integrated_velocity P s fr in
  grounded s' = true
  /\ length (position s' -v PLANET_CENTER) = target_distance P s
  /\ 0 <= dot (velocity s') n
  /\ tangential (cancel_radial v n) n = tangential v n
  /\ exists k, (k = FRICTION P \/ k = 1)
               /\ velocity s' = cancel_radial v n *v k.
Proof.
  intros Hinv Hf Ht Hp Hl s' n v.
  pose proof (frame_normal_unit_or_zero s Hinv) as Hn. fold n in Hn.
  assert (Es : s' = update P s fr) by reflexivity.
  rewrite (update_lands P s fr Hl) in Es.
  destruct (apply_friction_scale P (fst (fst (move_input P s fr)))
              (snd (fst (move_input P s fr))) (cancel_radial v n))
    as [k [Hk Ek]].
  fold n v in Es. rewrite Ek in Es.
  repeat split.
  - rewrite Es. reflexivity.
  - rewrite Es; simpl. rewrite vsub_center. now apply snap_length.
  - rewrite Es; simpl. rewrite dot_scale_l.
    pose proof (cancel_radial_dot v n Hn).
    destruct Hk as [-> | ->]; nra.
  - now apply cancel_radial_tangential.
  - exists k. split; [exact Hk |]. rewrite Es. reflexivity.
Qed.

Lemma standing_frame_position :
  integrated_position physics standing (idle_frame (1 / 10))
  = mkVec3 0 (3275 / 100) 0.
Proof.
  unfold integrated_position, integrated_velocity, move_amount.
  rewrite frame_normal_fresh by exact I.
  rewrite (move_input_none physics _ _ (no_move_input_idle _)).
  simpl. rewrite normal_at_axis_y by lra.
  apply Vec3_eq; simpl; lra.
Qed.

Lemma collision_resolves_witness :
  let s := standing in
  let fr := idle_frame (1 / 10) in
  let s' := update physics s fr in
  grounded s' = true
  /\ length (position s' -v PLANET_CENTER) = target_distance physics s
  /\ 0 <= dot (velocity s') (frame_normal s).
Proof.
  destruct (collision_resolves physics standing (idle_frame (1 / 10)))
    as [H1 [H2 [H3 _]]].
  - exact I.
  - simpl. lra.
  - unfold target_distance. simpl. lra.
  - rewrite standing_frame_position. intros H. injection H as H. lra.
  - unfold lands. rewrite standing_frame_position.
    rewrite length_axis_y by lra. unfold target_distance. simpl. lra.
  - repeat split; assumption.
Defined.

Lemma falling_frame_position :
  integrated_position physics falling (idle_frame 1) = vzero.
Proof.
  unfold integrated_position, integrated_velocity, move_amount.
  rewrite frame_normal_fresh by exact I.
  rewrite (move_input_none physics _ _ (no_move_input_idle _)).
  simpl. rewrite normal_at_axis_y by lra.
  apply Vec3_eq; simpl; lra.
Qed.

(** Falling from spawn height at 9 units per second, a one-second frame
    ends at the planet centre, below the stand-off distance, and the snap
    leaves the avatar there, at distance 0 instead of 33. *)
Lemma collision_at_center :
  lands physics falling (idle_frame 1)
  /\ grounded (update physics falling (idle_frame 1)) = true
  /\ length (position (update physics falling (idle_frame 1)) -v PLANET_CENTER)
     <> target_distance physics falling.
Proof.
  assert (Hl : lands physics falling (idle_frame 1)).
  { unfold lands. rewrite falling_frame_position, length_zero.
    unfold target_distance. simpl. lra. }
  split; [exact Hl |].
  rewrite (update_lands physics _ _ Hl). simpl. split; [reflexivity |].
  rewrite falling_frame_position, normalized_zero, vsub_center.
  replace (vzero *v target_distance physics falling) with vzero by vec_eq.
  rewrite length_zero. unfold target_distance. simpl. lra.
Qed.

(** C1 as stated fails in two ways.  When the integrated position is the
    planet centre the snap leaves the avatar there, at distance 0.  And
    the cancellation uses the normal computed at the start of the frame,
    not the normal where the avatar ends: on the surface at the pole,
    moving at 3 units per second against the held [d] key, a frame of a
    tenth of a second lands away from the centre, and afterwards the
    velocity points into the ground at the avatar's new position. *)
Lemma collision_response_counterexample :
  (lands physics falling (idle_frame 1)
   /\ grounded (update physics falling (idle_frame 1)) = true
   /\ length (position (update physics falling (idle_frame 1))
              -v PLANET_CENTER)
      <> target_distance physics falling)
  /\ (lands physics braking (right_frame (1 / 10))
      /\ integrated_position physics braking (right_frame (1 / 10))
         <> PLANET_CENTER
      /\ grounded (update physics braking (right_frame (1 / 10))) = true
      /\ dot (velocity (update physics braking (right_frame (1 / 10))))
             (normal_at
                (position (update physics braking (right_frame (1 / 10)))))
         < 0).
Proof.
  split; [exact collision_at_center |].
  split; [exact braking_lands |]. split; [| split].
  - rewrite (proj2 braking_integration). intros E. injection E as E. lra.
  - apply update_grounded_iff. exact braking_lands.
  - now destruct braking_after as [_ [_ H]].
Qed.

(** ** Jump *)

(** C2, as the code has it.  When [grounded] holds, the avatar is not at
    the planet centre and the memo cannot answer with a stale vector,
    [jump] of [v2.py] clears [grounded] and raises the velocity along the
    surface normal at the avatar's position by exactly [jump_height]. *)
Theorem jump_impulse (s : SphericalPlayer) :
  grounded s = true ->
  position s <> PLANET_CENTER ->
  cache_fresh_at s (position s) ->
  let n := normal_at (position s) in
  grounded (jump s) = false
  /\ dot (velocity (jump s)) n = dot (velocity s) n + jump_height s.
Proof.
  intros Hg Hp Hf n.
  destruct (jump_dot s n Hg) as [H1 H2]. split; [exact H1 |].
  rewrite H2, (frame_normal_fresh s Hf). fold n.
  assert (Hn : length_squared n = 1).
  { unfold n. rewrite normal_at_eq. apply normalized_unit. exact Hp. }
  unfold length_squared in Hn. rewrite Hn. ring.
Qed.

Lemma jump_impulse_witness :
  grounded (jump standing) = false
  /\ dot (velocity (jump standing)) (normal_at (position standing))
     = dot (velocity standing) (normal_at (position standing))
       + jump_height standing.
Proof.
  apply (jump_impulse standing).
  - reflexivity.
  - simpl. intros H. injection H as H. lra.
  - exact I.
Defined.

(** C2 as stated fails at the planet centre: there the normal is the zero
    vector, the impulse is zero, and the velocity along the normal does not
    change although [jump_height] is 5. *)
Lemma jump_at_center_counterexample :
  grounded stuck = true
  /\ dot (velocity (jump stuck)) (normal_at (position stuck))
     <> dot (velocity stuck) (normal_at (position stuck)) + jump_height stuck.
Proof.
  split; [reflexivity |].
  destruct (jump_dot stuck (normal_at (position stuck)) eq_refl) as [_ H].
  rewrite H. simpl position. rewrite normal_at_center, !dot_zero_r.
  simpl. lra.
Qed.

(** C8.  While [grounded] is false, [jump] returns the state it was given,
    in [v2.py] and in [b33134k6.6.25.py]: position, velocity, the flag, the
    camera pitch and every other attribute are untouched. *)
Theorem jump_airborne_noop :
  (forall s : V2.SphericalPlayer, V2.grounded s = false -> V2.jump s = s)
  /\ (forall c : B33134k6.SphericalController,
        B33134k6.grounded c = false -> B33134k6.jump c = c).
Proof.
  split.
  - intros s Hg. unfold V2.jump. now rewrite Hg.
  - intros c Hg. unfold B33134k6.jump. now rewrite Hg.
Qed.

Lemma jump_airborne_noop_witness : V2.jump falling = falling.
Proof. apply (proj1 jump_airborne_noop falling). reflexivity. Defined.

(** ** Reset *)

(** C6, what the code does.  [reset_position] of [v2.py] raises
    [AttributeError] at its first statement, [self.start_pos.copy()], in
    every state, so nothing is restored: the player standing at the pole
    is the example.  [reset_position] of [b33132.0.py] does run: it puts
    the position at the origin, zeroes velocity and rotation and sets the
    camera pitch to zero, and leaves [start_pos] alone. *)
Theorem reset_position_fails :
  V2.reset_position standing = Raise "AttributeError"
  /\ (forall s : V2.SphericalPlayer,
        V2.reset_position s = Raise "AttributeError")
  /\ (forall s : B33132.SphericalPlayer,
        B33132.position (B33132.reset_position s) = vzero
        /\ B33132.velocity (B33132.reset_position s) = vzero
        /\ B33132.rotation (B33132.reset_position s) = vzero
        /\ B33132.camera_pivot_rotation_x (B33132.reset_position s) = 0
        /\ B33132.start_pos (B33132.reset_position s) = B33132.start_pos s).
Proof.
  split; [reflexivity |]. split.
  - exact reset_position_raises.
  - intros s. now destruct (B33132_Theory.reset_position_origin s)
      as [H1 [H2 [H3 [H4 [H5 _]]]]].
Qed.

(** ** Construction *)

(** C9, as the code has it.  The constructors validate nothing.  In
    [b33134k6.6.25.py], for every configuration, a non-positive radius or a
    negative height included, construction returns a controller, whose
    [height] is the configured one.  In [v2.py] whether construction fails
    does not depend on the configuration. *)
Theorem construction_validates_nothing :
  (forall (G : B33134k6.Globals) (spawn : Vec3),
     exists c, B33134k6.__init__ G spawn = Ok c
               /\ B33134k6.height c = B33134k6.PLAYER_HEIGHT G)
  /\ (forall (P P' : Physics) (spawn : Vec3),
        (exists e, V2.__init__ P spawn = Raise e)
        <-> (exists e, V2.__init__ P' spawn = Raise e)).
Proof.
  split.
  - intros; eexists; split; reflexivity.
  - intros P P' spawn. rewrite !init_raises. tauto.
Qed.

(** C9 as stated fails: with radius -32 and height -2 the constructor of
    [b33134k6.6.25.py] returns an instance instead of raising, and the
    instance has the negative height. *)
Lemma invalid_configuration_counterexample :
  B33134k6.SURFACE_R inverted_globals <= 0
  /\ B33134k6.PLAYER_HEIGHT inverted_globals < 0
  /\ (exists c, B33134k6.__init__ inverted_globals (mkVec3 0 32 0) = Ok c
                /\ B33134k6.height c = -2).
Proof.
  simpl. repeat split; try lra. eexists. split; reflexivity.
Qed.

(** ** The surface-normal query *)

(** C4, as the code has it.  A query of [v2.py] at [p] returns exactly the
    reference normal [(p - center).normalized()] when the memo is empty,
    keyed differently from [p], or holds the normal of [p]; in every case it
    returns the reference normal of some position in the same cell of the
    one-decimal grid as [p], and the memo keeps that property for the
    queries that follow. *)
Theorem cached_normal_query (s : SphericalPlayer) (p : Vec3) :
  cache_inv s ->
  (cache_fresh_at s p -> snd (get_surface_normal s p) = normal_at p)
  /\ (exists q, pos_tuple1 q = pos_tuple1 p
                 /\ snd (get_surface_normal s p) = normal_at q)
  /\ cache_inv (fst (get_surface_normal s p)).
Proof.
  intros Hinv. split; [| split].
  - apply cache_fresh_normal.
  - now apply cache_inv_normal.
  - now apply cache_inv_get.
Qed.

Lemma cached_normal_query_witness :
  snd (get_surface_normal standing (mkVec3 0 33 0))
  = normal_at (mkVec3 0 33 0).
Proof.
  apply (proj1 (cached_normal_query standing (mkVec3 0 33 0) I)).
  exact I.
Defined.

(** C4 as stated fails: after a query at the pole, a query 0.04 to the side
    (not the centre) hits the memo, since both positions round to the same
    key, and returns the pole's normal, not the normal of the position
    asked for. *)
Lemma stale_normal_counterexample :
  let s1 := fst (get_surface_normal standing (mkVec3 0 33 0)) in
  let p := mkVec3 (4 / 100) 33 0 in
  p <> PLANET_CENTER
  /\ snd (get_surface_normal s1 p) = mkVec3 0 1 0
  /\ snd (get_surface_normal s1 p) <> normal_at p.
Proof.
  assert (E : snd (get_surface_normal
                     (fst (get_surface_normal standing (mkVec3 0 33 0)))
                     (mkVec3 (4 / 100) 33 0)) = mkVec3 0 1 0).
  { unfold get_surface_normal at 2. simpl cache.
    unfold get_surface_normal. simpl cache. cbv zeta.
    simpl fst. simpl cache. rewrite pos_tuple1_drift, PosTuple_eqb_refl.
    simpl. fold (normal_at (mkVec3 0 33 0)). apply normal_at_axis_y. lra. }
  cbv zeta. split; [| split].
  - intros H. injection H as H. lra.
  - exact E.
  - rewrite E. intros H. apply normal_at_drift. now symmetry.
Qed.

(** C5, as the code has it.  No variant has a fallback.  At the planet
    centre the uncached query of [b33132.0.py] returns the zero vector, and
    so does the query of [v2.py] unless the memo answers; it then returns
    the stored vector.  Neither raises; the zero vector is not a unit
    vector. *)
Theorem normal_at_center_is_zero (s : SphericalPlayer) :
  B33132.get_surface_normal PLANET_CENTER = vzero
  /\ (cache_fresh_at s PLANET_CENTER ->
      snd (get_surface_normal s PLANET_CENTER) = vzero)
  /\ (forall n, cache s = Some (pos_tuple1 PLANET_CENTER, n) ->
                snd (get_surface_normal s PLANET_CENTER) = n)
  /\ length vzero <> 1.
Proof.
  split; [| split; [| split]].
  - apply normal_at_center.
  - intros Hf. rewrite (cache_fresh_normal s _ Hf). apply normal_at_center.
  - intros n Hc. unfold get_surface_normal. rewrite Hc.
    now rewrite PosTuple_eqb_refl.
  - rewrite length_zero. lra.
Qed.

Lemma normal_at_center_is_zero_witness :
  snd (get_surface_normal standing PLANET_CENTER) = vzero.
Proof.
  apply (proj1 (proj2 (normal_at_center_is_zero standing))).
  exact I.
Defined.

(** C5 as stated fails: a player with an empty memo asked for the normal
    at the planet centre gets a vector of length 0, not a unit vector. *)
Lemma degenerate_normal_counterexample :
  cache standing = None
  /\ length (snd (get_surface_normal standing PLANET_CENTER)) <> 1.
Proof.
  split; [reflexivity |].
  rewrite (cache_fresh_normal standing PLANET_CENTER I), normal_at_center.
  rewrite length_zero. lra.
Qed.

(** ** Movement in the air *)

(** C3, as the code has it.  In [v2.py], in a frame that starts and stays
    airborne, movement input adds nothing to the velocity, which receives
    gravity only; it offsets the position by [move_amount * dt], and the
    airborne [move_amount] is the grounded one scaled by [AIR_CONTROL],
    which is 0.8.  In [b33134k6.6.25.py] the input of such a frame is added
    to the velocity as [move_direction * speed * AIR_CONTROL * dt], with
    [AIR_CONTROL] 0.5. *)
Theorem airborne_control :
  (forall (P : Physics) (s : V2.SphericalPlayer) (fr : Frame),
     V2.grounded s = false ->
     ~ V2.lands P s fr ->
     let s' := V2.update P s fr in
     V2.velocity s'
     = V2.velocity s +v (-v V2.frame_normal s) *v GRAVITY P *v dt fr
     /\ V2.position s'
        = V2.position s +v (V2.velocity s' +v V2.move_amount P s fr) *v dt fr
     /\ V2.move_amount P s fr
        = V2.move_amount P (V2.with_grounded s true) fr *v AIR_CONTROL P)
  /\ AIR_CONTROL V2.physics < 1
  /\ (forall (G : B33134k6.Globals) (c : B33134k6.SphericalController)
             (fr : Frame),
        B33134k6.grounded c = false ->
        ~ B33134k6.lands G c fr ->
        B33134k6.velocity (B33134k6.update G c fr)
        = B33134k6.velocity c
          +v B33134k6.move_direction fr (B33134k6.frame_up c)
             *v B33134k6.speed c *v B33134k6.AIR_CONTROL G *v dt fr
          +v (-v B33134k6.frame_up c) *v B33134k6.GRAVITY G *v dt fr)
  /\ B33134k6.AIR_CONTROL B33134k6.globals < 1.
Proof.
  split; [| split; [| split]].
  - intros P s fr Hg Hl s'. subst s'.
    rewrite (V2_Theory.update_airborne P s fr Hl). simpl.
    repeat split. now apply move_amount_air.
  - simpl. lra.
  - intros G c fr Hg Hl.
    rewrite (B33134k6_Theory.controller_update_airborne G c fr Hl). simpl.
    unfold B33134k6.integrated_velocity.
    now rewrite (B33134k6_Theory.steer_airborne G c fr _ Hg).
  - simpl. lra.
Qed.

Lemma airborne_control_witness :
  V2.velocity (V2.update physics high (forward_frame 1))
  = V2.velocity high
    +v (-v V2.frame_normal high) *v GRAVITY physics *v dt (forward_frame 1).
Proof.
  apply (proj1 airborne_control physics high (forward_frame 1)).
  - reflexivity.
  - exact high_forward_airborne.
Defined.

(** C3 as stated fails in [v2.py]: high above the pole, holding [w] for a
    one-second frame leaves the velocity exactly as without input; the
    input only shifts the position, by [0.8 * 7] along [forward]. *)
Lemma airborne_input_counterexample :
  grounded high = false
  /\ ~ no_move_input (forward_frame 1)
  /\ velocity (update physics high (forward_frame 1))
     = velocity (update physics high (idle_frame 1))
  /\ position (update physics high (forward_frame 1))
     = position (update physics high (idle_frame 1)) +v mkVec3 0 0 (56 / 10).
Proof.
  split; [reflexivity |]. split; [apply forward_frame_moves |].
  rewrite (V2_Theory.update_airborne _ _ _ high_forward_airborne).
  rewrite (V2_Theory.update_airborne _ _ _ high_idle_airborne).
  simpl. rewrite !high_velocity by reflexivity.
  rewrite high_forward_position, high_idle_position.
  split; [reflexivity |]. apply Vec3_eq; simpl; lra.
Qed.

(** ** Friction *)






(** ** The flag and the position *)

(** C10, as the code has it.  After every [update] of [v2.py] and of
    [b33132.0.py] (with a non-negative stand-off distance): if [grounded]
    is true the avatar is exactly at the stand-off distance from the
    centre, or at the centre itself; if [grounded] is false it is strictly
    farther than the stand-off distance. *)
Theorem grounded_position_consistent (P : Physics) :
  (forall (s : V2.SphericalPlayer) (fr : Frame),
     0 <= V2.target_distance P s ->
     let s' := V2.update P s fr in
     (V2.grounded s' = true ->
      length (V2.position s' -v PLANET_CENTER) = V2.target_distance P s'
      \/ V2.position s' = PLANET_CENTER)
     /\ (V2.grounded s' = false ->
         V2.target_distance P s' < length (V2.position s' -v PLANET_CENTER)))
  /\ (forall (s : B33132.SphericalPlayer) (fr : Frame),
        0 <= B33132.target_distance P s ->
        let s' := B33132.update P s fr in
        (B33132.grounded s' = true ->
         length (B33132.position s' -v PLANET_CENTER)
         = B33132.target_distance P s'
         \/ B33132.position s' = PLANET_CENTER)
        /\ (B33132.grounded s' = false ->
            B33132.target_distance P s'
            < length (B33132.position s' -v PLANET_CENTER))).
Proof.
  split; intros s fr Ht.
  - now apply V2_Theory.update_grounded_position.
  - now apply B33132_Theory.player_update_grounded_position.
Qed.

Lemma grounded_position_consistent_witness :
  length (V2.position (V2.update physics standing (idle_frame (1 / 10)))
          -v PLANET_CENTER)
  = V2.target_distance physics
      (V2.update physics standing (idle_frame (1 / 10)))
  \/ V2.position (V2.update physics standing (idle_frame (1 / 10)))
     = PLANET_CENTER.
Proof.
  apply (proj1 (grounded_position_consistent physics) standing
           (idle_frame (1 / 10))).
  - unfold target_distance. simpl. lra.
  - apply update_grounded_iff. exact standing_lands.
Defined.

(** C10 as stated fails at the planet centre.  In [b33132.0.py]
    [reset_position] puts the player at the origin, which is the planet
    centre: the next frame leaves it there and sets [grounded], at
    distance 0 from the centre instead of 33.  In [v2.py] a frame whose
    integrated position is the centre does the same. *)
Lemma grounded_at_center_counterexample :
  (let s := B33132.update B33132.physics (B33132.reset_position resting)
              (idle_frame (1 / 60)) in
   B33132.grounded s = true
   /\ length (B33132.position s -v PLANET_CENTER)
      <> B33132.target_distance B33132.physics s)
  /\ (let s := V2.update physics falling (idle_frame 1) in
      V2.grounded s = true
      /\ length (V2.position s -v PLANET_CENTER)
         <> V2.target_distance physics s).
Proof.
  split.
  - cbv zeta.
    destruct (B33132_Theory.center_frame B33132.physics resting (1 / 60))
      as [Hg Hp].
    { unfold B33132.target_distance. simpl. lra. }
    split; [exact Hg |]. rewrite Hp, vsub_center.
    change PLANET_CENTER with vzero. rewrite length_zero.
    unfold B33132.target_distance.
    replace (B33132.height _) with 2.
    + simpl. lra.
    + unfold B33132.update.
      destruct (B33132.move_input _ _ _ _) as [[mx mz] ma].
      destruct (Rle_dec _ _); reflexivity.
  - cbv zeta. destruct collision_at_center as [Hl [Hg Hd]].
    split; [exact Hg |].
    replace (target_distance physics (update physics falling (idle_frame 1)))
      with (target_distance physics falling); [exact Hd |].
    rewrite (update_lands physics _ _ Hl). reflexivity.
Qed.

End Controller_Properties.

(** * Further properties of the code *)


Module Controller_Invariants.
Import V2 V2_Theory More_Facts.

(** *** Calls, one by one *)

Lemma jump_fields (s : SphericalPlayer) :
  same_settings (jump s) s
  /\ camera_pivot_rotation_x (jump s) = camera_pivot_rotation_x s
  /\ position (jump s) = position s
  /\ (cache_inv s -> cache_inv (jump s)).
Proof.
  unfold jump. destruct (grounded s).
  - pose proof (cache_inv_get s (position s)) as Hc.
    destruct (get_surface_normal_state s (position s)) as [c [Hs _]].
    destruct (get_surface_normal s (position s)) as [s1 n]. simpl in *.
    subst s1. repeat split. exact Hc.
  - repeat split. tauto.
Qed.

Lemma update_fields (P : Physics) (s : SphericalPlayer) (fr : Frame) :
  same_settings (update P s fr) s
  /\ pitch_ok (camera_pivot_rotation_x (update P s fr)).
Proof.
  destruct (Rle_dec (length (integrated_position P s fr))
              (target_distance P s)) as [L | N].
  - rewrite (update_lands P s fr L). simpl.
    split; [repeat split | apply clamp_pitch].
  - rewrite (update_airborne P s fr N). simpl.
    split; [repeat split | apply clamp_pitch].
Qed.

Lemma same_settings_trans (a b c : SphericalPlayer) :
  same_settings a b -> same_settings b c -> same_settings a c.
Proof.
  unfold same_settings.
  intros [A1 [A2 [A3 [A4 A5]]]] [B1 [B2 [B3 [B4 B5]]]].
  repeat split; congruence.
Qed.

Lemma same_settings_refl (a : SphericalPlayer) : same_settings a a.
Proof. repeat split. Qed.

Lemma call_well_kept (P : Physics) (s0 s s' : SphericalPlayer) (c : Call) :
  call P s c = Ok s' -> well_kept s0 s -> well_kept s0 s'.
Proof.
  intros E [Hs [Hp Hc]]. destruct c as [fr | |]; simpl in E.
  - injection E as <-. destruct (update_fields P s fr) as [H1 H2].
    split; [now apply (same_settings_trans _ s) |].
    split; [exact H2 | now apply cache_inv_update].
  - injection E as <-. destruct (jump_fields s) as [H1 [H2 [_ H4]]].
    split; [now apply (same_settings_trans _ s) |].
    split; [now rewrite H2 | now apply H4].
  - discriminate.
Qed.

Lemma run_well_kept (P : Physics) (s0 : SphericalPlayer) (cs : list Call) :
  forall s s', run P s cs = Ok s' -> well_kept s0 s -> well_kept s0 s'.
Proof.
  induction cs as [| c cs IH]; intros s s' E H; simpl in E.
  - now injection E as <-.
  - destruct (call P s c) as [s1 | e] eqn:Ec; [| discriminate].
    apply (IH s1 s' E). now apply (call_well_kept P s0 s s1 c).
Qed.

(** A sequence without [reset_position] runs to its end. *)
Lemma run_returns (P : Physics) (cs : list Call) :
  Forall (fun c => c <> CallReset) cs ->
  forall s, exists s', run P s cs = Ok s'.
Proof.
  induction 1 as [| c cs Hc _ IH]; intros s; simpl.
  - now exists s.
  - destruct c as [fr | |]; simpl; [apply IH | apply IH | now elim Hc].
Qed.

End Controller_Invariants.

Module Host_Facts.
Import V2_Host.

(** *** Sums, minima and maxima of a sample buffer *)

Lemma fold_Rplus_acc (l : list R) (a : R) :
  fold_left Rplus l a = a + fold_left Rplus l 0.
Proof.
  revert a. induction l as [| x l IH]; intros a; simpl.
  - ring.
  - rewrite (IH (a + x)), (IH (0 + x)). ring.
Qed.

Lemma sum_cons (x : R) (l : list R) : sum (x :: l) = x + sum l.
Proof. unfold sum. simpl. rewrite fold_Rplus_acc. ring. Qed.

Lemma sum_bounds (lo hi : R) (l : list R) :
  Forall (fun y => lo <= y <= hi) l ->
  INR (List.length l) * lo <= sum l <= INR (List.length l) * hi.
Proof.
  induction 1 as [| y l Hy Hl IH].
  - unfold sum. simpl. lra.
  - rewrite sum_cons. change (List.length (y :: l)) with (S (List.length l)).
    rewrite S_INR. lra.
Qed.

Lemma list_min_spec (x : R) (l : list R) :
  list_min x l <= x
  /\ Forall (fun y => list_min x l <= y) l
  /\ In (list_min x l) (x :: l).
Proof.
  unfold list_min. revert x. induction l as [| y l IH]; intros x; simpl.
  - split; [lra |]. split; [constructor | now left].
  - destruct (IH (Rmin x y)) as [H1 [H2 H3]].
    pose proof (Rmin_l x y). pose proof (Rmin_r x y).
    split; [lra |]. split; [constructor; [lra | exact H2] |].
    destruct H3 as [H3 | H3]; [| now right; right].
    rewrite <- H3. unfold Rmin. destruct (Rle_dec x y); [now left |].
    right. now left.
Qed.

Lemma list_max_spec (x : R) (l : list R) :
  x <= list_max x l
  /\ Forall (fun y => y <= list_max x l) l
  /\ In (list_max x l) (x :: l).
Proof.
  unfold list_max. revert x. induction l as [| y l IH]; intros x; simpl.
  - split; [lra |]. split; [constructor | now left].
  - destruct (IH (Rmax x y)) as [H1 [H2 H3]].
    pose proof (Rmax_l x y). pose proof (Rmax_r x y).
    split; [lra |]. split; [constructor; [lra | exact H2] |].
    destruct H3 as [H3 | H3]; [| now right; right].
    rewrite <- H3. unfold Rmax. destruct (Rle_dec x y); [| now left].
    right. now left.
Qed.

(** The statistics of a buffer of positive rates. *)
Lemma fps_stats_bounds (samples : list R) (st : FpsStats) :
  Forall (fun x => 0 < x) samples ->
  fps_stats samples = Some st ->
  0 < min_fps st /\ min_fps st <= avg_fps st <= max_fps st.
Proof.
  intros Hpos E. destruct samples as [| x rest]; [discriminate |].
  assert (Hst : st = mkStats (sum (x :: rest) / INR (List.length (x :: rest)))
                       (list_min x rest) (list_max x rest))
    by (unfold fps_stats in E; congruence).
  rewrite Hst. clear E Hst. cbn [min_fps avg_fps max_fps].
  destruct (list_min_spec x rest) as [L1 [L2 L3]].
  destruct (list_max_spec x rest) as [M1 [M2 M3]].
  split.
  - rewrite Forall_forall in Hpos. now apply Hpos.
  - assert (Hall : Forall (fun y => list_min x rest <= y <= list_max x rest)
                     (x :: rest)).
    { constructor; [lra |]. rewrite Forall_forall in *.
      intros y Hy. split; [now apply L2 | now apply M2]. }
    pose proof (sum_bounds _ _ _ Hall) as Hs.
    assert (Hn : 0 < INR (List.length (x :: rest)))
      by (apply lt_0_INR; simpl; lia).
    set (k := INR (List.length (x :: rest))) in *.
    split.
    + apply (Rmult_le_reg_l k); [exact Hn |].
      replace (k * (sum (x :: rest) / k)) with (sum (x :: rest))
        by (field; lra).
      lra.
    + apply (Rmult_le_reg_l k); [exact Hn |].
      replace (k * (sum (x :: rest) / k)) with (sum (x :: rest))
        by (field; lra).
      lra.
Qed.

(** *** The buffer of the monitor *)

Lemma monitor_update_eq (m : PerformanceMonitor) (dt now : R) :
  monitor_update m dt now
  = if Rle_dec (log_interval m) (now - last_log_time m) then
      (mkMonitor [] now (log_interval m) 0 (max_samples m),
       fps_stats (fst (sampled m dt)))
    else
      (mkMonitor (fst (sampled m dt)) (last_log_time m) (log_interval m)
         (snd (sampled m dt)) (max_samples m),
       None).
Proof.
  unfold monitor_update, sampled.
  destruct (Rlt_dec 0 dt); [| reflexivity].
  destruct (sample_count m + 1 >? max_samples m)%Z; reflexivity.
Qed.

Lemma tl_length (A : Type) (l : list A) :
  List.length (tl l) = (List.length l - 1)%nat.
Proof. destruct l; simpl; lia. Qed.

Lemma Forall_tl_of (A : Type) (Q : A -> Prop) (l : list A) :
  Forall Q l -> Forall Q (tl l).
Proof. destruct 1; simpl; [constructor | assumption]. Qed.

Lemma sampled_inv (m : PerformanceMonitor) (dt : R) :
  monitor_inv m ->
  snd (sampled m dt) = Z.of_nat (List.length (fst (sampled m dt)))
  /\ (snd (sampled m dt) <= max_samples m)%Z
  /\ Forall (fun x => 0 < x) (fst (sampled m dt)).
Proof.
  intros [Hc [Hle [Hmax Hpos]]]. unfold sampled.
  destruct (Rlt_dec 0 dt) as [Hdt | _]; [| now repeat split].
  assert (Hnew : Forall (fun x => 0 < x) (fps_samples m ++ [1 / dt])).
  { apply Forall_app. split; [exact Hpos |]. constructor; [| constructor].
    apply Rdiv_lt_0_compat; lra. }
  destruct (sample_count m + 1 >? max_samples m)%Z eqn:Hgt; cbn [fst snd].
  - rewrite Z.gtb_ltb in Hgt. apply Z.ltb_lt in Hgt. split; [| split].
    + rewrite tl_length, length_app. simpl. lia.
    + lia.
    + now apply Forall_tl_of.
  - rewrite Z.gtb_ltb in Hgt. apply Z.ltb_ge in Hgt. split; [| split].
    + rewrite length_app. simpl. lia.
    + lia.
    + exact Hnew.
Qed.

Lemma monitor_update_inv (m : PerformanceMonitor) (dt now : R) :
  monitor_inv m -> monitor_inv (fst (monitor_update m dt now)).
Proof.
  intros Hinv. destruct (sampled_inv m dt Hinv) as [H1 [H2 H3]].
  destruct Hinv as [_ [_ [Hmax _]]].
  rewrite monitor_update_eq.
  destruct (Rle_dec _ _); unfold monitor_inv; cbn.
  - repeat split; [exact Hmax | exact Hmax | constructor].
  - repeat split; assumption.
Qed.

Lemma monitor_update_settings (m : PerformanceMonitor) (dt now : R) :
  log_interval (fst (monitor_update m dt now)) = log_interval m
  /\ max_samples (fst (monitor_update m dt now)) = max_samples m.
Proof.
  rewrite monitor_update_eq. destruct (Rle_dec _ _); now split.
Qed.

Lemma monitor_run_inv (frames : list (R * R)) (m : PerformanceMonitor) :
  monitor_inv m ->
  monitor_inv (monitor_run m frames)
  /\ log_interval (monitor_run m frames) = log_interval m
  /\ max_samples (monitor_run m frames) = max_samples m.
Proof.
  unfold monitor_run. revert m.
  induction frames as [| [dt now] frames IH]; intros m Hinv; simpl.
  - split; [exact Hinv | split; reflexivity].
  - destruct (IH _ (monitor_update_inv m dt now Hinv)) as [H1 [H2 H3]].
    destruct (monitor_update_settings m dt now) as [S1 S2].
    cbn [fst snd]. split; [exact H1 |]. split; congruence.
Qed.

Lemma monitor_init_inv (now : R) : monitor_inv (monitor_init now).
Proof. unfold monitor_inv. simpl. repeat split; try lia. constructor. Qed.

(** *** The animated scales *)

Lemma animate_nodes_spec (t : R) (nodes : list R) (i : nat) :
  List.length (animate_nodes t i nodes) = List.length nodes
  /\ Forall (fun x => 65 / 100 <= x <= 95 / 100) (animate_nodes t i nodes).
Proof.
  revert i. induction nodes as [| x nodes IH]; intros i; simpl.
  - split; [reflexivity | constructor].
  - destruct (IH (S i)) as [H1 H2]. split; [now rewrite H1 |].
    constructor; [| exact H2].
    pose proof (SIN_bound (t * 3 + INR i)). lra.
Qed.

End Host_Facts.

Module Mesh_Facts.
Import B33134k6_Mesh.

Lemma in_range (n k : Z) : In k (range n) <-> (0 <= k < n)%Z.
Proof.
  unfold range. rewrite in_map_iff. split.
  - intros [x [<- Hx]]. apply in_seq in Hx. lia.
  - intros H. exists (Z.to_nat k). split; [lia |]. apply in_seq. lia.
Qed.

Lemma range_length (n : Z) : List.length (range n) = Z.to_nat n.
Proof. unfold range. now rewrite length_map, length_seq. Qed.

Lemma flat_map_length_const (A B : Type) (f : A -> list B) (k : nat)
    (l : list A) :
  (forall x, List.length (f x) = k) ->
  List.length (flat_map f l) = (List.length l * k)%nat.
Proof.
  intros Hf. induction l as [| x l IH]; simpl; [reflexivity |].
  now rewrite length_app, IH, Hf.
Qed.

Lemma vertex_unit (segments i j : Z) :
  length_squared (vertex segments i j) = 1.
Proof.
  unfold vertex, length_squared, dot. cbn [vx vy vz].
  set (lat := PI * IZR i / IZR segments).
  set (lon := 2 * PI * IZR j / IZR segments).
  pose proof (sin2_cos2 lat) as H1. pose proof (sin2_cos2 lon) as H2.
  unfold Rsqr in H1, H2.
  replace (sin lat * cos lon * (sin lat * cos lon) + cos lat * cos lat
           + sin lat * sin lon * (sin lat * sin lon))
    with (sin lat * sin lat * (sin lon * sin lon + cos lon * cos lon)
          + cos lat * cos lat) by ring.
  rewrite H2. lra.
Qed.

Lemma vertices_length (segments : Z) :
  List.length
    (flat_map (fun i => map (fun j => vertex segments i j)
                          (range (segments + 1)))
       (range (segments + 1)))
  = (Z.to_nat (segments + 1) * Z.to_nat (segments + 1))%nat.
Proof.
  rewrite (flat_map_length_const _ _ _ (Z.to_nat (segments + 1))).
  - now rewrite range_length.
  - intros i. now rewrite length_map, range_length.
Qed.

Lemma triangles_length (segments : Z) :
  List.length
    (flat_map (fun i => flat_map (fun j => quad segments i j)
                          (range segments))
       (range segments))
  = (Z.to_nat segments * (Z.to_nat segments * 2))%nat.
Proof.
  rewrite (flat_map_length_const _ _ _ (Z.to_nat segments * 2)).
  - now rewrite range_length.
  - intros i. rewrite (flat_map_length_const _ _ _ 2%nat).
    + now rewrite range_length.
    + reflexivity.
Qed.

Lemma quad_ok (segments i j : Z) :
  (0 <= i < segments)%Z -> (0 <= j < segments)%Z ->
  Forall (triangle_ok (Z.to_nat (segments + 1) * Z.to_nat (segments + 1)))
    (quad segments i j).
Proof.
  intros Hi Hj. unfold quad, triangle_ok, index_ok.
  assert (E : Z.of_nat (Z.to_nat (segments + 1) * Z.to_nat (segments + 1))
              = ((segments + 1) * (segments + 1))%Z) by lia.
  rewrite E.
  repeat constructor; nia.
Qed.

End Mesh_Facts.

Module More_Properties.
Import V2 V2_Theory V2_Examples V2_Example_Facts More_Facts
       Controller_Invariants.

(** ** The controller of [v2.py] *)

(** X1.  Whatever the pitch was before, and however far the mouse moved,
    after [update] the camera pitch is within [-90, 90], in [v2.py],
    [b33132.0.py] and [b33134k6.6.25.py]. *)
Theorem update_clamps_pitch :
  (forall (P : Physics) (s : V2.SphericalPlayer) (fr : Frame),
     pitch_ok (V2.camera_pivot_rotation_x (V2.update P s fr)))
  /\ (forall (P : Physics) (s : B33132.SphericalPlayer) (fr : Frame),
        pitch_ok (B33132.camera_pivot_rotation_x (B33132.update P s fr)))
  /\ (forall (G : B33134k6.Globals) (c : B33134k6.SphericalController)
             (fr : Frame),
        pitch_ok (B33134k6.camera_pivot_rotation_x (B33134k6.update G c fr))).
Proof.
  split; [| split].
  - intros P s fr. now destruct (update_fields P s fr).
  - intros P s fr. unfold B33132.update.
    destruct (B33132.move_input _ _ _ _) as [[mx mz] ma].
    destruct (Rle_dec _ _); simpl; apply clamp_pitch.
  - intros G c fr. unfold B33134k6.update.
    destruct (Rle_dec _ _); simpl; apply clamp_pitch.
Qed.

(** X2.  Through any sequence of [update] and [jump] calls, a [v2.py]
    player keeps its speed, jump height, height, mouse sensitivity and
    start position; a camera pitch within [-90, 90] stays there, and a
    memo that holds the normal of some position with the stored key keeps
    doing so.  Such a sequence always runs to its end. *)
Theorem calls_keep_settings (P : Physics) (s0 : SphericalPlayer)
    (cs : list Call) :
  pitch_ok (camera_pivot_rotation_x s0) ->
  cache_inv s0 ->
  Forall (fun c => c <> CallReset) cs ->
  exists s,
    run P s0 cs = Ok s
    /\ speed s = speed s0
    /\ jump_height s = jump_height s0
    /\ height s = height s0
    /\ mouse_sensitivity s = mouse_sensitivity s0
    /\ start_pos s = start_pos s0
    /\ pitch_ok (camera_pivot_rotation_x s)
    /\ cache_inv s.
Proof.
  intros Hp Hc Hcs.
  destruct (run_returns P cs Hcs s0) as [s E]. exists s.
  split; [exact E |].
  assert (H0 : well_kept s0 s0)
    by (split; [apply same_settings_refl | split; assumption]).
  destruct (run_well_kept P s0 cs s0 s E H0)
    as [[A1 [A2 [A3 [A4 A5]]]] [Hp' Hc']].
  split; [exact A1 |]. split; [exact A2 |]. split; [exact A3 |].
  split; [exact A4 |]. split; [exact A5 |]. split; [exact Hp' | exact Hc'].
Qed.

Lemma calls_keep_settings_witness :
  exists s,
    run physics standing
      [CallUpdate (idle_frame (1 / 60)); CallJump;
       CallUpdate (forward_frame (1 / 60))] = Ok s
    /\ speed s = speed standing
    /\ jump_height s = jump_height standing
    /\ height s = height standing
    /\ mouse_sensitivity s = mouse_sensitivity standing
    /\ start_pos s = start_pos standing
    /\ pitch_ok (camera_pivot_rotation_x s)
    /\ cache_inv s.
Proof.
  apply (calls_keep_settings physics standing).
  - simpl. unfold pitch_ok. lra.
  - exact I.
  - repeat constructor; discriminate.
Defined.

(** X3.  There is no double jump: after [jump] the flag is false whatever
    the state was, and a second [jump] right after the first changes
    nothing, in [v2.py], [b33132.0.py] and [b33134k6.6.25.py]. *)
Theorem no_double_jump :
  (forall s : V2.SphericalPlayer,
     V2.grounded (V2.jump s) = false /\ V2.jump (V2.jump s) = V2.jump s)
  /\ (forall s : B33132.SphericalPlayer,
        B33132.grounded (B33132.jump s) = false
        /\ B33132.jump (B33132.jump s) = B33132.jump s)
  /\ (forall c : B33134k6.SphericalController,
        B33134k6.grounded (B33134k6.jump c) = false
        /\ B33134k6.jump (B33134k6.jump c) = B33134k6.jump c).
Proof.
  assert (H1 : forall s : V2.SphericalPlayer,
             V2.grounded (V2.jump s) = false).
  { intros s. unfold V2.jump. destruct (V2.grounded s) eqn:Hg; [| exact Hg].
    destruct (V2.get_surface_normal s (V2.position s)) as [s1 n].
    reflexivity. }
  assert (H2 : forall s : B33132.SphericalPlayer,
             B33132.grounded (B33132.jump s) = false).
  { intros s. unfold B33132.jump.
    destruct (B33132.grounded s) eqn:Hg; [reflexivity | exact Hg]. }
  assert (H3 : forall c : B33134k6.SphericalController,
             B33134k6.grounded (B33134k6.jump c) = false).
  { intros c. unfold B33134k6.jump.
    destruct (B33134k6.grounded c) eqn:Hg; [reflexivity | exact Hg]. }
  split; [| split].
  - intros s. split; [apply H1 |].
    unfold V2.jump at 1. now rewrite H1.
  - intros s. split; [apply H2 |].
    unfold B33132.jump at 1. now rewrite H2.
  - intros c. split; [apply H3 |].
    unfold B33134k6.jump at 1. now rewrite H3.
Qed.

(** X4.  The memo answers a repeated query from its one slot: after a query
    at [p] the stored key is the key of [p], and asking again at [p], or at
    any position with the same key, returns the same vector and leaves the
    player as it is. *)
Theorem memo_repeat (s : SphericalPlayer) (p q : Vec3) :
  pos_tuple1 q = pos_tuple1 p ->
  let s1 := fst (get_surface_normal s p) in
  let n1 := snd (get_surface_normal s p) in
  cache s1 = Some (pos_tuple1 p, n1)
  /\ get_surface_normal s1 q = (s1, n1).
Proof.
  intros Hq s1 n1.
  assert (Hc : cache s1 = Some (pos_tuple1 p, n1)).
  { subst s1 n1.
    destruct (get_surface_normal_cases s p) as [[E _] | [n [Hc E]]];
      rewrite E; simpl; [reflexivity | exact Hc]. }
  split; [exact Hc |].
  unfold get_surface_normal at 1. rewrite Hc, Hq, PosTuple_eqb_refl.
  reflexivity.
Qed.

Lemma memo_repeat_witness :
  get_surface_normal (fst (get_surface_normal standing (mkVec3 0 33 0)))
    (mkVec3 (4 / 100) 33 0)
  = (fst (get_surface_normal standing (mkVec3 0 33 0)),
     snd (get_surface_normal standing (mkVec3 0 33 0))).
Proof.
  apply (memo_repeat standing (mkVec3 0 33 0) (mkVec3 (4 / 100) 33 0)).
  exact pos_tuple1_drift.
Defined.

(** X5.  How stale the memo can be: two positions with the same key differ
    by at most 0.1 in each coordinate, so a query answered from the memo
    returns the reference normal of a position within 0.1 of the one asked
    for, coordinate by coordinate. *)
Theorem memo_staleness_bound (s : SphericalPlayer) (p : Vec3) :
  cache_inv s ->
  exists q,
    snd (get_surface_normal s p) = normal_at q
    /\ - (1 / 10) <= vx p - vx q <= 1 / 10
    /\ - (1 / 10) <= vy p - vy q <= 1 / 10
    /\ - (1 / 10) <= vz p - vz q <= 1 / 10.
Proof.
  intros Hinv.
  destruct (cache_inv_normal s p Hinv) as [q [Hk Hn]].
  exists q. split; [exact Hn |].
  unfold pos_tuple1 in Hk. injection Hk as Hx Hy Hz.
  unfold round1 in *. symmetry in Hx, Hy, Hz.
  repeat split;
    try (apply (round_equal_close 10); [lra | assumption]).
Qed.

Lemma memo_staleness_bound_witness :
  exists q,
    snd (get_surface_normal standing (mkVec3 0 33 0)) = normal_at q
    /\ - (1 / 10) <= vx (mkVec3 0 33 0) - vx q <= 1 / 10
    /\ - (1 / 10) <= vy (mkVec3 0 33 0) - vy q <= 1 / 10
    /\ - (1 / 10) <= vz (mkVec3 0 33 0) - vz q <= 1 / 10.
Proof.
  apply (memo_staleness_bound standing (mkVec3 0 33 0)).
  exact I.
Defined.

(** X6.  Diagonal input is no faster than straight input: when the net
    movement input is not zero ([move_x] or [move_z] differs from 0) and
    the body's [forward] and [right] are orthonormal, [move_amount] has
    length exactly [speed] on the ground and [speed * AIR_CONTROL] in the
    air, whichever keys produce that input. *)
Theorem move_amount_length (P : Physics) (s : SphericalPlayer) (fr : Frame) :
  ~ no_move_input fr ->
  length_squared (forward fr) = 1 ->
  length_squared (right fr) = 1 ->
  dot (forward fr) (right fr) = 0 ->
  0 <= speed s ->
  0 <= AIR_CONTROL P ->
  length (move_amount P s fr)
  = speed s * (if grounded s then 1 else AIR_CONTROL P).
Proof.
  intros Hmove Hf Hr Hfr Hs Ha.
  unfold move_amount, move_input.
  set (x := IZR (held (held_keys fr) "d" - held (held_keys fr) "a")).
  set (z := IZR (held (held_keys fr) "w" - held (held_keys fr) "s")).
  assert (Hxz : x <> 0 \/ z <> 0).
  { destruct (Req_dec_T x 0) as [Ex | Nx]; [| now left].
    destruct (Req_dec_T z 0) as [Ez | Nz]; [| now right].
    exfalso. apply Hmove. split; now apply eq_IZR_R0. }
  assert (Hb : Rneqb x 0 || Rneqb z 0 = true).
  { unfold Rneqb.
    destruct (Req_dec_T x 0) as [Ex | _]; [| reflexivity].
    destruct (Req_dec_T z 0) as [Ez | _]; [| reflexivity].
    destruct Hxz; contradiction. }
  rewrite Hb. cbn [snd].
  pose proof (normalised_pair x z Hxz) as Hn. cbv zeta in Hn.
  set (l := sqrt (x * x + z * z)) in *.
  assert (Hd : length (forward fr *v (z / l) +v right fr *v (x / l)) = 1).
  { apply length_of_unit. rewrite combination_length_squared, Hf, Hr, Hfr.
    lra. }
  assert (Hk : 0 <= (if negb (grounded s) then AIR_CONTROL P else 1))
    by (destruct (grounded s); simpl; lra).
  rewrite (length_scale _ _ Hk), (length_scale _ _ Hs), Hd.
  destruct (grounded s); simpl; ring.
Qed.

Lemma move_amount_length_witness :
  length (move_amount physics high (forward_frame 1))
  = speed high * (if grounded high then 1 else AIR_CONTROL physics).
Proof.
  apply (move_amount_length physics high (forward_frame 1)).
  - apply forward_frame_moves.
  - vec_unfold. lra.
  - vec_unfold. lra.
  - vec_unfold. lra.
  - simpl. lra.
  - simpl. lra.
Defined.

(** X7.  In [b33134k6.6.25.py] the steering direction lies in the ground
    plane and is normalised: for a unit [up], [move_direction] is
    perpendicular to [up], and it is either a unit vector or the zero
    vector. *)
Theorem move_direction_tangent (fr : Frame) (u : Vec3) :
  length_squared u = 1 ->
  dot (B33134k6.move_direction fr u) u = 0
  /\ (length_squared (B33134k6.move_direction fr u) = 1
      \/ B33134k6.move_direction fr u = vzero).
Proof.
  intros Hu. unfold B33134k6.move_direction.
  set (m := forward fr *v _ +v right fr *v _).
  fold (tangential m u).
  assert (Ht : dot (tangential m u) u = 0)
    by (apply tangential_dot; now left).
  destruct (Rlt_dec 0 (length (tangential m u))) as [L | N].
  - split; [now apply normalized_orthogonal |].
    left. apply normalized_unit. intros E. rewrite E, length_zero in L. lra.
  - split; [exact Ht |]. right. apply length_zero_inv.
    pose proof (length_nonneg (tangential m u)). lra.
Qed.

Lemma move_direction_tangent_witness :
  dot (B33134k6.move_direction (forward_frame 1) (mkVec3 0 1 0))
    (mkVec3 0 1 0) = 0.
Proof.
  apply (proj1 (move_direction_tangent (forward_frame 1) (mkVec3 0 1 0)
                  ltac:(vec_unfold; lra))).
Defined.

(** X8.  In [b33132.0.py] movement never pushes into or out of the ground:
    for a unit or zero surface normal, [move_amount] is perpendicular to
    it, and its length is at most [speed] times the control factor. *)
Theorem camera_move_tangent (P : Physics) (s : B33132.SphericalPlayer)
    (fr : Frame) (n : Vec3) :
  unit_or_zero n ->
  0 <= B33132.speed s ->
  0 <= AIR_CONTROL P ->
  let move_amount := snd (B33132.move_input P s fr n) in
  dot move_amount n = 0
  /\ length move_amount
     <= B33132.speed s
        * (if B33132.grounded s then 1 else AIR_CONTROL P).
Proof.
  intros Hn Hs Ha. unfold B33132.move_input.
  set (x := IZR (held (held_keys fr) "d" - held (held_keys fr) "a")).
  set (z := IZR (held (held_keys fr) "w" - held (held_keys fr) "s")).
  assert (Hk : 0 <= (if negb (B33132.grounded s) then AIR_CONTROL P else 1))
    by (destruct (B33132.grounded s); simpl; lra).
  destruct (Rneqb x 0 || Rneqb z 0); cbn [snd].
  - set (tf := normalized (forward fr -v n *v dot n (forward fr))).
    set (tr := normalized (right fr -v n *v dot n (right fr))).
    assert (Htf : dot tf n = 0).
    { apply normalized_orthogonal. rewrite (dot_comm n (forward fr)).
      now apply tangential_dot. }
    assert (Htr : dot tr n = 0).
    { apply normalized_orthogonal. rewrite (dot_comm n (right fr)).
      now apply tangential_dot. }
    set (d := normalized (tf *v z +v tr *v x)).
    assert (Hd : dot d n = 0).
    { apply normalized_orthogonal.
      rewrite dot_add_l, !dot_scale_l, Htf, Htr. ring. }
    split.
    + rewrite !dot_scale_l, Hd. ring.
    + rewrite (length_scale _ _ Hk), (length_scale _ _ Hs).
      assert (Hl : length d <= 1).
      { destruct (normalized_unit_or_zero (tf *v z +v tr *v x)) as [E | E];
          fold d in E.
        - rewrite (length_of_unit _ E). lra.
        - rewrite E, length_zero. lra. }
      pose proof (length_nonneg d) as Hge.
      assert (H1 : B33132.speed s * length d <= B33132.speed s) by nra.
      assert (H2 : 0 <= B33132.speed s * length d) by nra.
      destruct (B33132.grounded s); cbn [negb]; nra.
  - split.
    + unfold dot; simpl. ring.
    + change (mkVec3 0 0 0) with vzero. rewrite length_zero.
      destruct (B33132.grounded s); nra.
Qed.

Lemma camera_move_tangent_witness :
  dot (snd (B33132.move_input B33132.physics
              (B33132.mkPlayer (mkVec3 0 33 0) vzero true vzero vzero 0 7 5 2
                 (100, 100))
              (forward_frame 1) (mkVec3 0 1 0)))
    (mkVec3 0 1 0) = 0.
Proof.
  apply (camera_move_tangent B33132.physics
           (B33132.mkPlayer (mkVec3 0 33 0) vzero true vzero vzero 0 7 5 2
              (100, 100))
           (forward_frame 1) (mkVec3 0 1 0)).
  - left. vec_unfold. lra.
  - simpl. lra.
  - simpl. lra.
Defined.

(** X9.  The collision response of [b33134k6.6.25.py]: in a frame whose
    integrated position ends within [SURFACE_R] of the centre and is not
    the centre, [update] sets [grounded], puts the controller at exactly
    [SURFACE_R] from the centre, and leaves a velocity with no component
    into the ground along [up], its part tangent to [up] untouched. *)
Theorem controller_collision (G : B33134k6.Globals)
    (c : B33134k6.SphericalController) (fr : Frame) :
  0 <= B33134k6.SURFACE_R G ->
  B33134k6.lands G c fr ->
  B33134k6.integrated_position G c fr <> PLANET_CENTER ->
  let c' := B33134k6.update G c fr in
  let u := B33134k6.frame_up c in
  B33134k6.grounded c' = true
  /\ B33134k6.up c' = u
  /\ length (B33134k6.position c' -v PLANET_CENTER) = B33134k6.SURFACE_R G
  /\ 0 <= dot (B33134k6.velocity c') u
  /\ tangential (B33134k6.velocity c') u
     = tangential (B33134k6.integrated_velocity G c fr) u.
Proof.
  intros HR Hl Hp c' u. subst c'.
  rewrite (B33134k6_Theory.controller_update_lands G c fr Hl).
  cbn [B33134k6.grounded B33134k6.up B33134k6.position B33134k6.velocity].
  fold u.
  assert (Hu : unit_or_zero u) by apply normalized_unit_or_zero.
  change (if Rlt_dec (dot (B33134k6.integrated_velocity G c fr) u) 0
          then B33134k6.integrated_velocity G c fr
               -v u *v dot (B33134k6.integrated_velocity G c fr) u
          else B33134k6.integrated_velocity G c fr)
    with (cancel_radial (B33134k6.integrated_velocity G c fr) u).
  split; [reflexivity |]. split; [reflexivity |]. split; [| split].
  - rewrite vsub_center. now apply snap_length.
  - now apply cancel_radial_dot.
  - now apply cancel_radial_tangential.
Qed.

Lemma controller_collision_witness :
  B33134k6.grounded
    (B33134k6.update B33134k6.globals sliding (idle_frame (1 / 10))) = true
  /\ length
       (B33134k6.position
          (B33134k6.update B33134k6.globals sliding (idle_frame (1 / 10)))
        -v PLANET_CENTER)
     = B33134k6.SURFACE_R B33134k6.globals.
Proof.
  destruct (controller_collision B33134k6.globals sliding
              (idle_frame (1 / 10))) as [H1 [_ [H3 _]]].
  - simpl. lra.
  - exact B33134k6_Theory.sliding_idle_lands.
  - unfold B33134k6.integrated_position.
    rewrite B33134k6_Theory.sliding_idle_velocity.
    intros E. apply (f_equal vy) in E. simpl in E. lra.
  - split; assumption.
Defined.

(** X10.  A frame of [v2.py] that stays airborne changes the velocity only
    along the frame's surface normal [n]: the part tangent to [n] is kept,
    and the part along [n] drops by [GRAVITY * dt] (times [|n|^2], which is
    1 away from the centre). *)
Theorem airborne_frame_dynamics (P : Physics) (s : SphericalPlayer)
    (fr : Frame) :
  cache_inv s ->
  ~ lands P s fr ->
  let n := frame_normal s in
  grounded (update P s fr) = false
  /\ tangential (velocity (update P s fr)) n = tangential (velocity s) n
  /\ dot (velocity (update P s fr)) n
     = dot (velocity s) n - GRAVITY P * dt fr * length_squared n.
Proof.
  intros Hinv Hl n.
  pose proof (frame_normal_unit_or_zero s Hinv) as Hn.
  rewrite (update_airborne P s fr Hl). cbn [grounded velocity].
  split; [reflexivity |]. split.
  - now apply integrated_tangential.
  - unfold integrated_velocity, integrate. cbn [fst]. fold n.
    unfold length_squared, dot, vadd, vscale, vneg; simpl. ring.
Qed.

Lemma airborne_frame_dynamics_witness :
  tangential (velocity (update physics high (forward_frame 1)))
    (frame_normal high)
  = tangential (velocity high) (frame_normal high).
Proof.
  apply (airborne_frame_dynamics physics high (forward_frame 1)).
  - exact I.
  - exact high_forward_airborne.
Defined.

(** X11.  Resting contact is stable in [v2.py]: a player at rest at the
    stand-off distance, with a memo that is not stale, stays exactly where
    it is through a frame without movement input, with zero velocity and
    [grounded] set, as long as the frame is short enough not to fall
    through the centre ([GRAVITY * dt^2] below the stand-off distance). *)
Theorem rest_is_stable (P : Physics) (s : SphericalPlayer) (fr : Frame) :
  no_move_input fr ->
  velocity s = vzero ->
  position s <> PLANET_CENTER ->
  length (position s) = target_distance P s ->
  cache_fresh_at s (position s) ->
  0 <= GRAVITY P ->
  0 <= dt fr ->
  GRAVITY P * (dt fr * dt fr) < target_distance P s ->
  position (update P s fr) = position s
  /\ velocity (update P s fr) = vzero
  /\ grounded (update P s fr) = true.
Proof.
  intros Hno Hv Hp Hlen Hfresh HG Hd Hshort.
  set (t := target_distance P s) in *.
  set (n := normal_at (position s)).
  assert (Hfn : frame_normal s = n) by now apply frame_normal_fresh.
  assert (Hn : length_squared n = 1).
  { unfold n. rewrite normal_at_eq. now apply normalized_unit. }
  assert (Hpn : position s = n *v t).
  { unfold n. rewrite normal_at_eq, <- Hlen.
    symmetry. apply normalized_times_length. }
  assert (Hiv : integrated_velocity P s fr = n *v (- (GRAVITY P * dt fr))).
  { unfold integrated_velocity, integrate. cbn [fst].
    rewrite Hfn, Hv. vec_eq. }
  assert (Hma : move_amount P s fr = vzero).
  { unfold move_amount. now rewrite (move_input_none P s fr Hno). }
  assert (Hip : integrated_position P s fr
                = n *v (t - GRAVITY P * (dt fr * dt fr))).
  { unfold integrated_position, integrate. cbn [snd].
    rewrite Hma, Hfn, Hv.
    pose proof (f_equal vx Hpn) as Hx. pose proof (f_equal vy Hpn) as Hy.
    pose proof (f_equal vz Hpn) as Hz. simpl in Hx, Hy, Hz.
    apply Vec3_eq; simpl; rewrite ?Hx, ?Hy, ?Hz; ring. }
  assert (Hk : 0 < t - GRAVITY P * (dt fr * dt fr)) by lra.
  assert (Hl : lands P s fr).
  { unfold lands. fold t. rewrite Hip, length_scale by lra.
    rewrite (length_of_unit n Hn). nra. }
  rewrite (update_lands P s fr Hl). cbn [position velocity grounded].
  rewrite (apply_friction_none P s fr _ Hno), Hip, Hiv, Hfn.
  rewrite (normalized_pos_scale n _ Hn Hk). fold t.
  split; [now symmetry |]. split; [| reflexivity].
  unfold cancel_radial. rewrite dot_scale_l.
  unfold length_squared in Hn. rewrite Hn.
  destruct (Rlt_dec _ 0) as [L | N].
  - vec_eq; ring.
  - assert (E : GRAVITY P * dt fr = 0) by nra.
    rewrite E. vec_eq; ring.
Qed.

Lemma rest_is_stable_witness :
  position (update physics standing (idle_frame (1 / 10))) = position standing
  /\ velocity (update physics standing (idle_frame (1 / 10))) = vzero
  /\ grounded (update physics standing (idle_frame (1 / 10))) = true.
Proof.
  apply (rest_is_stable physics standing (idle_frame (1 / 10))).
  - apply no_move_input_idle.
  - reflexivity.
  - simpl. intros E. injection E as E. lra.
  - simpl position. rewrite length_axis_y by lra.
    unfold target_distance. simpl. lra.
  - exact I.
  - simpl. lra.
  - simpl. lra.
  - unfold target_distance. simpl. lra.
Defined.

(** ** The host code of [v2.py] *)

Import V2_Host Host_Facts.

(** X12.  The sample buffer of the performance monitor is bounded: from
    construction on, after any sequence of [update] calls, it holds at
    most 600 samples, [sample_count] is its length, every sample is a
    positive rate, and [max_samples] and [log_interval] are still 600 and
    10. *)
Theorem monitor_buffer_bounded (now : R) (frames : list (R * R)) :
  let m := monitor_run (monitor_init now) frames in
  (List.length (fps_samples m) <= 600)%nat
  /\ sample_count m = Z.of_nat (List.length (fps_samples m))
  /\ Forall (fun x => 0 < x) (fps_samples m)
  /\ max_samples m = 600%Z
  /\ log_interval m = 10.
Proof.
  intros m.
  destruct (monitor_run_inv frames _ (monitor_init_inv now))
    as [[Hc [Hle [_ Hpos]]] [Hi Hm]].
  fold m in Hc, Hle, Hpos, Hi, Hm. simpl in Hi, Hm.
  repeat split; try assumption. lia.
Qed.

(** X13.  When [update] prints statistics they are ordered and positive:
    for a monitor whose samples are positive rates, the minimum is above
    zero and the average lies between the minimum and the maximum. *)
Theorem monitor_stats_ordered (m : PerformanceMonitor) (dt now : R)
    (st : FpsStats) :
  monitor_inv m ->
  snd (monitor_update m dt now) = Some st ->
  0 < min_fps st /\ min_fps st <= avg_fps st <= max_fps st.
Proof.
  intros Hinv E. rewrite monitor_update_eq in E.
  destruct (Rle_dec _ _); cbn [snd] in E; [| discriminate].
  apply (fps_stats_bounds (fst (sampled m dt))); [| exact E].
  now destruct (sampled_inv m dt Hinv) as [_ [_ H]].
Qed.

Lemma monitor_stats_ordered_witness :
  0 < 1 / (1 / 60)
  /\ 1 / (1 / 60) <= sum [1 / (1 / 60)] / INR 1 <= 1 / (1 / 60).
Proof.
  apply (monitor_stats_ordered (monitor_init 0) (1 / 60) 10
           (mkStats (sum [1 / (1 / 60)] / INR 1) (1 / (1 / 60))
              (1 / (1 / 60)))).
  - apply monitor_init_inv.
  - rewrite monitor_update_eq. unfold sampled. simpl.
    destruct (Rle_dec 10 (10 - 0)) as [_ | N]; [| exfalso; lra].
    destruct (Rlt_dec 0 (1 / 60)) as [_ | N]; [| exfalso; lra].
    reflexivity.
Defined.

(** X14.  When the monitor prints: [update] prints statistics exactly when
    the log interval has elapsed and there is a sample to report (the frame
    adds one, or the buffer was not empty).  Whenever the interval has
    elapsed, printing or not, the buffer is emptied, the counter is zero
    and the clock restarts at the current time. *)
Theorem monitor_log_schedule (m : PerformanceMonitor) (dt now : R) :
  monitor_inv m ->
  (0 < max_samples m)%Z ->
  let r := monitor_update m dt now in
  (snd r <> None
   <-> log_interval m <= now - last_log_time m
       /\ (0 < dt \/ fps_samples m <> []))
  /\ (log_interval m <= now - last_log_time m
      -> fps_samples (fst r) = [] /\ sample_count (fst r) = 0%Z
         /\ last_log_time (fst r) = now).
Proof.
  intros [Hc [Hle [_ Hpos]]] Hmax r. subst r. rewrite monitor_update_eq.
  assert (Hs : fst (sampled m dt) <> []
               <-> 0 < dt \/ fps_samples m <> []).
  { unfold sampled. destruct (Rlt_dec 0 dt) as [Hdt | Hdt].
    - destruct (sample_count m + 1 >? max_samples m)%Z eqn:Hgt; cbn [fst].
      + rewrite Z.gtb_ltb in Hgt. apply Z.ltb_lt in Hgt.
        split; [now left |]. intros _.
        destruct (fps_samples m) as [| x [| y l]]; simpl in *;
          [lia | discriminate | discriminate].
      + split; [now left |]. intros _.
        destruct (fps_samples m); discriminate.
    - cbn [fst]. split; [now right |]. intros [H | H]; [contradiction | exact H]. }
  assert (Hf : forall l, fps_stats l <> None <-> l <> []).
  { intros [| x l]; simpl; split; intros H; congruence. }
  destruct (Rle_dec _ _) as [L | N]; cbn [fst snd fps_samples sample_count
                                            last_log_time].
  - split; [| now intros _].
    rewrite Hf, Hs. split; [intros H; now split | now intros [_ H]].
  - split; [| intros H; contradiction].
    split; [intros H; now elim H | intros [H _]; contradiction].
Qed.

Lemma monitor_log_schedule_witness :
  snd (monitor_update (monitor_init 0) (1 / 60) 10) <> None
  <-> log_interval (monitor_init 0) <= 10 - last_log_time (monitor_init 0)
      /\ (0 < 1 / 60 \/ fps_samples (monitor_init 0) <> []).
Proof.
  apply (monitor_log_schedule (monitor_init 0) (1 / 60) 10).
  - apply monitor_init_inv.
  - simpl. lia.
Defined.

(** X15.  The animated scales stay within their amplitude: after
    [update_animations], whatever the time, the star's scale is within
    [1.8, 2.2], every energy node's scale is within [0.65, 0.95], and no
    node is added or dropped. *)
Theorem animation_scales_bounded (w : Animated) (t dt : R) :
  let w' := update_animations w t dt in
  18 / 10 <= central_star_scale w' <= 22 / 10
  /\ List.length (energy_node_scales w')
     = List.length (energy_node_scales w)
  /\ Forall (fun x => 65 / 100 <= x <= 95 / 100) (energy_node_scales w').
Proof.
  intros w'. subst w'. unfold update_animations.
  cbn [central_star_scale energy_node_scales].
  split.
  - pose proof (SIN_bound (t * 2)). lra.
  - apply animate_nodes_spec.
Qed.

(** X16.  The key handler: a key other than [space], [r] and [escape]
    never raises, leaves the player and the quit request alone, and
    pressing it twice brings the game back to where it was ([f] and [tab]
    are toggles, every other key does nothing). *)
Theorem input_toggle_keys (g : Game) (key : string) :
  key <> "space"%string -> key <> "r"%string -> key <> "escape"%string ->
  exists g',
    input g key = Ok g'
    /\ player g' = player g
    /\ quit_requested g' = quit_requested g
    /\ input g' key = Ok g.
Proof.
  intros Hs Hr He. unfold input.
  destruct (String.eqb_spec key "escape"); [contradiction |].
  destruct (String.eqb_spec key "space"); [contradiction |].
  destruct (String.eqb_spec key "r"); [contradiction |].
  destruct (String.eqb_spec key "f").
  - eexists. split; [reflexivity |]. cbn.
    rewrite negb_involutive. destruct g; repeat split.
  - destruct (String.eqb_spec key "tab").
    + eexists. split; [reflexivity |]. cbn.
      rewrite !negb_involutive. destruct g; repeat split.
    + exists g. repeat split.
Qed.

Lemma input_toggle_keys_witness :
  exists g',
    input (mkGame standing false true true false) "f" = Ok g'
    /\ player g' = standing
    /\ quit_requested g' = false
    /\ input g' "f" = Ok (mkGame standing false true true false).
Proof.
  apply (input_toggle_keys (mkGame standing false true true false) "f");
    discriminate.
Defined.

(** ** The sphere mesh of [b33134k6.6.25.py] *)

Import B33134k6_Mesh Mesh_Facts.

(** X18.  For a positive number of segments [create_lowpoly_sphere] returns
    a mesh of [(segments + 1)^2] vertices and [2 * segments^2] triangles,
    and every index of every triangle points at a vertex of the mesh. *)
Theorem sphere_mesh_counts (segments : Z) :
  (0 < segments)%Z ->
  exists m,
    create_lowpoly_sphere segments = Ok m
    /\ Z.of_nat (List.length (vertices m))
       = ((segments + 1) * (segments + 1))%Z
    /\ Z.of_nat (List.length (triangles m)) = (2 * (segments * segments))%Z
    /\ Forall (triangle_ok (List.length (vertices m))) (triangles m).
Proof.
  intros Hs. unfold create_lowpoly_sphere.
  destruct (Z.eqb_spec segments 0) as [E | _]; [lia |].
  eexists. split; [reflexivity |]. cbn [vertices triangles].
  rewrite vertices_length, triangles_length.
  split; [lia |]. split; [lia |].
  apply Forall_flat_map, Forall_forall. intros i Hi.
  apply Forall_flat_map, Forall_forall. intros j Hj.
  apply in_range in Hi, Hj. now apply quad_ok.
Qed.

Lemma sphere_mesh_counts_witness :
  exists m,
    create_lowpoly_sphere 12 = Ok m
    /\ Z.of_nat (List.length (vertices m)) = ((12 + 1) * (12 + 1))%Z
    /\ Z.of_nat (List.length (triangles m)) = (2 * (12 * 12))%Z
    /\ Forall (triangle_ok (List.length (vertices m))) (triangles m).
Proof.
  apply (sphere_mesh_counts 12). lia.
Defined.

(** X19.  Every vertex of a mesh that [create_lowpoly_sphere] returns lies
    on the unit sphere (floats read as real numbers). *)
Theorem sphere_vertices_unit (segments : Z) (m : Mesh) :
  create_lowpoly_sphere segments = Ok m ->
  Forall (fun v => length_squared v = 1) (vertices m).
Proof.
  unfold create_lowpoly_sphere.
  destruct (segments =? 0)%Z; [discriminate |].
  intros E. injection E as <-. cbn [vertices].
  apply Forall_flat_map, Forall_forall. intros i _.
  apply Forall_forall. intros v Hv. apply in_map_iff in Hv.
  destruct Hv as [j [<- _]]. apply vertex_unit.
Qed.

Lemma sphere_vertices_unit_witness :
  Forall (fun v => length_squared v = 1)
    [vertex 1 0 0; vertex 1 0 1; vertex 1 1 0; vertex 1 1 1].
Proof.
  apply (sphere_vertices_unit 1
           (mkMesh [vertex 1 0 0; vertex 1 0 1; vertex 1 1 0; vertex 1 1 1]
              [(0, 2, 1); (1, 2, 3)]%Z)).
  reflexivity.
Defined.

(** X21.  A negative [segments] is not rejected: no loop body runs and the
    mesh has no vertex and no triangle. *)
Theorem sphere_negative_empty (segments : Z) :
  (segments < 0)%Z ->
  create_lowpoly_sphere segments = Ok (mkMesh [] []).
Proof.
  intros H. unfold create_lowpoly_sphere.
  destruct (Z.eqb_spec segments 0) as [E | _]; [lia |].
  unfold range.
  replace (Z.to_nat (segments + 1)) with 0%nat by lia.
  replace (Z.to_nat segments) with 0%nat by lia.
  reflexivity.
Qed.

Lemma sphere_negative_empty_witness :
  create_lowpoly_sphere (-1) = Ok (mkMesh [] []).
Proof.
  apply (sphere_negative_empty (-1)). lia.
Defined.

(** ** The rounded normal of [buildv06.6.25.py] *)

(** X22.  The surface normal of a [buildv06.6.25.py] frame is the normal of
    a position within 0.005 of the player's in each coordinate, and it is
    a unit vector or the zero vector. *)
Theorem rounded_normal_close (p : Vec3) :
  exists q,
    Buildv06.surface_normal p = normal_at q
    /\ unit_or_zero (Buildv06.surface_normal p)
    /\ - (1 / 200) <= vx p - vx q <= 1 / 200
    /\ - (1 / 200) <= vy p - vy q <= 1 / 200
    /\ - (1 / 200) <= vz p - vz q <= 1 / 200.
Proof.
  exists (Buildv06.Vec3_of_tuple (Buildv06.pos_tuple2 p)).
  split; [reflexivity |]. split; [apply normalized_unit_or_zero |].
  unfold Buildv06.pos_tuple2, Buildv06.Vec3_of_tuple, round2.
  cbn [vx vy vz].
  pose proof (round_half_even_error (vx p * 100)).
  pose proof (round_half_even_error (vy p * 100)).
  pose proof (round_half_even_error (vz p * 100)).
  repeat split; lra.
Qed.

(** X23.  The dead zone of the rounded normal: a player within 0.005 of the
    planet centre in every coordinate gets the zero vector as its surface
    normal, although it need not be at the centre. *)
Theorem rounded_normal_dead_zone (p : Vec3) :
  - (1 / 200) < vx p < 1 / 200 ->
  - (1 / 200) < vy p < 1 / 200 ->
  - (1 / 200) < vz p < 1 / 200 ->
  Buildv06.surface_normal p = vzero.
Proof.
  intros Hx Hy Hz.
  unfold Buildv06.surface_normal, Buildv06.pos_tuple2.
  rewrite (round2_near (vx p) 0), (round2_near (vy p) 0),
    (round2_near (vz p) 0) by (simpl; lra).
  unfold Buildv06.get_surface_normal, Buildv06.Vec3_of_tuple.
  rewrite vsub_center.
  replace (mkVec3 (0 / 100) (0 / 100) (0 / 100)) with vzero by vec_eq.
  apply normalized_zero.
Qed.

Lemma rounded_normal_dead_zone_witness :
  Buildv06.surface_normal (mkVec3 (4 / 1000) 0 0) = vzero
  /\ mkVec3 (4 / 1000) 0 0 <> PLANET_CENTER.
Proof.
  split.
  - apply (rounded_normal_dead_zone (mkVec3 (4 / 1000) 0 0)); simpl; lra.
  - intros E. injection E as E. lra.
Defined.

(** ** The monitor of [buildv06.6.25.py] *)

(** X24.  The monitor of [buildv06.6.25.py] has no cap: between two log
    lines its buffer grows by one sample with every frame of positive
    duration, and the log clock does not move. *)
Theorem uncapped_monitor_growth (m : Buildv06_Host.PerformanceMonitor)
    (frames : list (R * R)) :
  Forall (fun fr => 0 < fst fr
                    /\ snd fr - Buildv06_Host.last_log_time m
                       < Buildv06_Host.log_interval m) frames ->
  let m' := Buildv06_Host.monitor_run m frames in
  List.length (Buildv06_Host.fps_samples m')
  = (List.length (Buildv06_Host.fps_samples m) + List.length frames)%nat
  /\ Buildv06_Host.last_log_time m' = Buildv06_Host.last_log_time m.
Proof.
  unfold Buildv06_Host.monitor_run. revert m.
  induction frames as [| [dt now] frames IH]; intros m Hall; cbn zeta.
  - simpl. split; [lia | reflexivity].
  - inversion Hall as [| fr frs [Hdt Hnow] Hrest]; subst. cbn [fst snd] in *.
    assert (E : fst (Buildv06_Host.monitor_update m dt now)
                = Buildv06_Host.mkMonitor
                    (Buildv06_Host.fps_samples m ++ [1 / dt])
                    (Buildv06_Host.last_log_time m)
                    (Buildv06_Host.log_interval m)).
    { unfold Buildv06_Host.monitor_update.
      destruct (Rlt_dec 0 dt) as [_ | N]; [| contradiction].
      destruct (Rle_dec _ _) as [L | _]; [lra | reflexivity]. }
    cbn [fold_left fst snd]. rewrite E.
    destruct (IH (Buildv06_Host.mkMonitor
                    (Buildv06_Host.fps_samples m ++ [1 / dt])
                    (Buildv06_Host.last_log_time m)
                    (Buildv06_Host.log_interval m)) Hrest) as [H1 H2].
    cbn zeta in H1, H2. rewrite H1, H2.
    cbn [Buildv06_Host.fps_samples Buildv06_Host.last_log_time].
    rewrite length_app. simpl. split; [lia | reflexivity].
Qed.

Lemma uncapped_monitor_growth_witness :
  List.length
    (Buildv06_Host.fps_samples
       (Buildv06_Host.monitor_run (Buildv06_Host.monitor_init 0)
          [(1 / 60, 1); (1 / 60, 2)]))
  = 2%nat.
Proof.
  apply (uncapped_monitor_growth (Buildv06_Host.monitor_init 0)
           [(1 / 60, 1); (1 / 60, 2)]).
  repeat constructor; simpl; lra.
Defined.

End More_Properties.
